(** * A shallow embedding of [app/main.go]

    The demo application exposes three HTTP handlers ([/hello], [/slow],
    [/alloc]) and runs a traffic generator that calls [/slow] in a loop
    while emitting spans, metrics and log records.  The Go code is embedded
    as state-passing functions over a [World]: the process globals
    ([allocHolder]), the allocator, the chronological [history] of the
    effects the process performs, and a counter of regular-expression
    evaluations (the CPU work).  Whatever the program reads from outside
    (random draws, the clock, fresh span identifiers, the result of the
    HTTP round trip) is an explicit input. *)

From Stdlib Require Import ZArith NArith List String Ascii Bool Lia.
From Stdlib Require Import QArith Floats Strings.Byte DecimalString DecimalPos Uint63.
Import ListNotations.

Open Scope string_scope.
Open Scope Z_scope.

(** ** Go runtime and standard library pieces used by the program *)

Module Go.

(** [for i := 0; i < n; i++ { body }] over a state. *)
Definition for_range {S : Type} (n : nat) (body : nat -> S -> S) (s : S) : S :=
  fold_left (fun acc i => body i acc) (seq 0 n) s.

(** [byte(i)]: conversion of an [int] to [uint8] keeps the low 8 bits. *)
Definition byte_of_int (i : Z) : Z := i mod 256.

(** [make([]byte, n)]: a zeroed array. *)
Definition make_bytes (n : nat) : list Z := repeat 0 n.

(** [float64] is IEEE binary64, as the kernel's primitive floats. *)
Definition float64 : Type := PrimFloat.float.

(** [float64(x)] for an [int64] of magnitude below [2^63]. *)
Definition float64_of_int64 (z : Z) : float64 :=
  if z <? 0
  then PrimFloat.opp (PrimFloat.of_uint63 (Uint63.of_Z (- z)))
  else PrimFloat.of_uint63 (Uint63.of_Z z).

(** [time.Duration] counts nanoseconds. *)
Definition Millisecond : Z := 1000000.
Definition Second : Z := 1000000000.

(** [func (d Duration) Seconds() float64]:
    [sec := d / Second; nsec := d % Second;
     return float64(sec) + float64(nsec)/1e9]. *)
Definition Seconds (d : Z) : float64 :=
  let sec := Z.quot d Second in
  let nsec := Z.rem d Second in
  PrimFloat.add (float64_of_int64 sec)
                (PrimFloat.div (float64_of_int64 nsec) 1e9%float).

(** [int(f)]: truncation toward zero.  Outside the [int64] range (and on
    NaN or an infinity) Go leaves the result to the platform; amd64 gives
    the "integer indefinite" value [-2^63]. *)
Definition int_indefinite : Z := - 2 ^ 63.

Definition int_of_float64 (f : float64) : Z :=
  match Prim2SF f with
  | S754_zero _ => 0
  | S754_finite s m e =>
      let mag := if 0 <=? e then Zpos m * 2 ^ e else Zpos m / 2 ^ (- e) in
      let v := if s then - mag else mag in
      if (- 2 ^ 63 <=? v) && (v <? 2 ^ 63) then v else int_indefinite
  | _ => int_indefinite
  end.

(** *** [fmt] *)

Inductive Arg : Type :=
| AString (s : string)
| AInt (z : Z)
| AError (msg : string).   (* an [error], shown through [Error()] *)

(** Decimal rendering of [%d]. *)
Definition fmt_d (z : Z) : string := NilZero.string_of_int (Z.to_int z).

(** The operand as [%v] prints it. *)
Definition fmt_v (a : Arg) : string :=
  match a with
  | AString s => s
  | AInt z => fmt_d z
  | AError msg => msg
  end.

Definition type_name (a : Arg) : string :=
  match a with
  | AString _ => "string"
  | AInt _ => "int"
  | AError _ => "*errors.errorString"
  end.

(** One verb applied to one operand; a verb that does not fit the operand
    prints [%!verb(type=value)]. *)
Definition format_verb (verb : ascii) (a : Arg) : string :=
  let bad := "%!" ++ String verb ("(" ++ type_name a ++ "=" ++ fmt_v a ++ ")") in
  match verb, a with
  | "v"%char, _ => fmt_v a
  | "s"%char, AString s => s
  | "s"%char, AError msg => msg
  | "d"%char, AInt z => fmt_d z
  | _, _ => bad
  end.

Fixpoint extra_args (first : bool) (args : list Arg) : string :=
  match args with
  | [] => ""
  | a :: rest =>
      (if first then "" else ", ") ++ type_name a ++ "=" ++ fmt_v a
        ++ extra_args false rest
  end.

(** [fmt.Sprintf] for the verbs [%s], [%d], [%v] and [%%]. *)
Fixpoint Sprintf (format : string) (args : list Arg) : string :=
  match format with
  | EmptyString =>
      match args with
      | [] => ""
      | _ => "%!(EXTRA " ++ extra_args true args ++ ")"
      end
  | String "%" EmptyString => "%!(NOVERB)"
  | String "%" (String verb rest) =>
      if Ascii.eqb verb "%" then String "%" (Sprintf rest args)
      else match args with
           | [] => "%!" ++ String verb ("(MISSING)" ++ Sprintf rest [])
           | a :: args' => format_verb verb a ++ Sprintf rest args'
           end
  | String c rest => String c (Sprintf rest args)
  end.

(** *** [encoding/hex] *)

Definition hextable : string := "0123456789abcdef".

Definition hex_digit (n : N) : ascii :=
  match String.get (N.to_nat n) hextable with
  | Some c => c
  | None => "0"%char
  end.

(** [hex.EncodeToString]: two lower-case digits per byte. *)
Fixpoint EncodeToString (src : list byte) : string :=
  match src with
  | [] => ""
  | b :: rest =>
      let v := Byte.to_N b in
      String (hex_digit (N.shiftr v 4))
             (String (hex_digit (N.land v 15)) (EncodeToString rest))
  end.

(** [strings.Contains(s, substr)]. *)
Definition Contains (s substr : string) : Prop :=
  exists before after, s = before ++ substr ++ after.

Definition is_hex_digit (c : ascii) : bool :=
  let n := N_of_ascii c in
  ((48 <=? n) && (n <=? 57) || (97 <=? n) && (n <=? 102))%N.

Fixpoint all_chars (p : ascii -> bool) (s : string) : bool :=
  match s with
  | EmptyString => true
  | String c rest => p c && all_chars p rest
  end.

End Go.

(** ** Telemetry: spans, metrics, log records and the effect history *)

(** A trace identifier is a [[16]byte], a span identifier a [[8]byte];
    their [String()] is the hexadecimal encoding of the bytes. *)
Record SpanContext : Type := mkSpanContext {
  TraceID : list byte;
  SpanID : list byte
}.

Definition TraceID_String (sc : SpanContext) : string :=
  Go.EncodeToString (TraceID sc).
Definition SpanID_String (sc : SpanContext) : string :=
  Go.EncodeToString (SpanID sc).

Inductive Severity : Type := SeverityInfo | SeverityError.

Inductive LogValue : Type :=
| StringValue (s : string)
| IntValue (z : Z).

Record LogRecord : Type := mkLogRecord {
  Timestamp : Z;
  RecSeverity : Severity;
  SeverityText : string;
  Body : string;
  Attributes : list (string * LogValue)
}.

Definition KeyValues : Type := list (string * string).

(** Everything the process does that can be seen from outside, in the
    order in which it does it. *)
Inductive Event : Type :=
| SpanStart (name : string) (sc : SpanContext) (parent : option SpanContext)
| SpanSetAttributes (sc : SpanContext) (attrs : KeyValues)
| SpanRecordError (sc : SpanContext) (err : string)
| SpanEnd (sc : SpanContext)
| CounterAdd (instrument : string) (incr : Z) (attrs : KeyValues)
| HistogramRecord (instrument : string) (value : Go.float64) (attrs : KeyValues)
| LogEmit (r : LogRecord)
| HttpGet (url : string)
| BodyClose
| Sleep (d : Z)
| ResponseWriteHeader (code : Z)
| ResponseWrite (data : string)
| LogPrintln (msg : string).

(** A retained batch: the array that [make] returned, known by its
    address, and its bytes. *)
Record Block : Type := mkBlock {
  blk_addr : nat;
  blk_data : list Z
}.

Record World : Type := mkWorld {
  allocHolder : list Block;   (* the global [allocHolder [][]byte] *)
  heap_next : nat;            (* next address the allocator hands out *)
  history : list Event;       (* effects so far, oldest first *)
  regexp_calls : N            (* evaluations of [MatchString] so far *)
}.

Definition initial_world : World :=
  {| allocHolder := []; heap_next := 0%nat; history := []; regexp_calls := 0%N |}.

Definition record_event (ev : Event) (w : World) : World :=
  {| allocHolder := allocHolder w;
     heap_next := heap_next w;
     history := history w ++ [ev];
     regexp_calls := regexp_calls w |}.

(** [tracer.Start(ctx, name)]: the new span joins the trace of the span
    found in [ctx], or starts a trace of its own; [fresh] holds the
    identifiers drawn by the SDK's generator. *)
Definition tracer_Start (ctx : option SpanContext) (name : string)
    (fresh : SpanContext) (w : World) : SpanContext * World :=
  let sc := match ctx with
            | Some parent => {| TraceID := TraceID parent; SpanID := SpanID fresh |}
            | None => fresh
            end in
  (sc, record_event (SpanStart name sc ctx) w).

Definition span_End (span : SpanContext) (w : World) : World :=
  record_event (SpanEnd span) w.

(** *** [http.ResponseWriter] *)

Record ResponseWriter : Type := mkResponseWriter {
  wroteHeader : bool;
  status : Z;
  body : string
}.

Definition StatusOK : Z := 200.
Definition StatusInternalServerError : Z := 500.

(** Before the handler runs; a response whose handler never writes a
    header goes out with status 200. *)
Definition newResponseWriter : ResponseWriter :=
  {| wroteHeader := false; status := StatusOK; body := "" |}.

Definition rw_WriteHeader (code : Z) (st : ResponseWriter * World)
    : ResponseWriter * World :=
  let (rw, w) := st in
  let rw' := if wroteHeader rw then rw
             else {| wroteHeader := true; status := code; body := body rw |} in
  (rw', record_event (ResponseWriteHeader code) w).

(** [w.Write(data)]: the first write sends the header with status 200 if
    none was sent. *)
Definition rw_Write (data : string) (st : ResponseWriter * World)
    : ResponseWriter * World :=
  let (rw, w) := st in
  let rw' := {| wroteHeader := true;
                status := if wroteHeader rw then status rw else StatusOK;
                body := body rw ++ data |} in
  (rw', record_event (ResponseWrite data) w).

Record Request : Type := mkRequest {
  Method : string;
  Path : string;
  RawQuery : string;
  req_span : option SpanContext   (* the span that otelhttp put in [r.Context()] *)
}.

(** ** The application *)

Definition serviceName : string := "demo-app".
Definition serviceVersion : string := "1.0.0".
Definition jobName : string := "demo-app".

Definition routeFast : string := "/hello".
Definition routeSlow : string := "/slow".
Definition routeAlloc : string := "/alloc".

(** The source text of the compiled pattern and the sample matched
    against it. *)
Definition emailRegexp : string :=
  "^(\w+([-.][A-Za-z0-9]+)*){3,18}@\w+([-.][A-Za-z0-9]+)*\.\w+([-.][A-Za-z0-9]+)*$".
Definition slowEmailSample : string :=
  "rosamariachoccelahuaaranda70@gmail.comnnbbb.bbNG.bbb.n¿.?n".

(** Names under which [initMetrics] registers the two instruments. *)
Definition requestCount : string := "demo_request_total".
Definition histogram : string := "demo_request_duration_seconds".

(** Constants of [allocateMemoryBurst]. *)
Definition chunkSize : N := 256 * 1024.
Definition chunkCount : N := 200.
Definition maxRetained : nat := 20.

(** [for i := range batch { batch[i] = byte(i) }], from index [i] on. *)
Fixpoint fill_from (i : Z) (batch : list Z) : list Z :=
  match batch with
  | [] => []
  | _ :: rest => Go.byte_of_int i :: fill_from (i + 1) rest
  end.

(** [allocateMemoryBurst], for a batch of [size] bytes. *)
Definition allocateMemoryBurst_sized (size : nat) (w : World) : World :=
  let holder :=
    if (maxRetained <=? List.length (allocHolder w))%nat
    then tl (allocHolder w)                       (* allocHolder[1:] *)
    else allocHolder w in
  let batch := {| blk_addr := heap_next w;
                  blk_data := fill_from 0 (Go.make_bytes size) |} in
  {| allocHolder := holder ++ [batch];
     heap_next := S (heap_next w);
     history := history w;
     regexp_calls := regexp_calls w |}.

Definition allocateMemoryBurst (w : World) : World :=
  allocateMemoryBurst_sized (N.to_nat (chunkSize * chunkCount)) w.

(** The draws [helloHandler] takes from [math/rand]. *)
Record HelloDraws : Type := mkHelloDraws {
  draw_Intn50 : Z;      (* rand.Intn(50) *)
  draw_Float32 : Q      (* rand.Float32(), the exact value of the float32 *)
}.

(** What [math/rand] promises about the two draws. *)
Definition valid_draws (d : HelloDraws) : Prop :=
  0 <= draw_Intn50 d < 50 /\ (0 <= draw_Float32 d)%Q /\ (draw_Float32 d < 1)%Q.

(** The constant [0.05] in [rand.Float32() < 0.05] takes the type of the
    other operand: it is the float32 nearest to 0.05, [13421773 / 2^28]. *)
Definition failure_threshold : Q := 13421773 # 268435456.

Definition Qltb (x y : Q) : bool :=
  match (x ?= y)%Q with Lt => true | _ => false end.

Definition helloHandler (r : Request) (d : HelloDraws) (rw : ResponseWriter)
    (w : World) : ResponseWriter * World :=
  let w := record_event (Sleep (Go.Millisecond * draw_Intn50 d)) w in
  if Qltb (draw_Float32 d) failure_threshold
  then rw_WriteHeader StatusInternalServerError (rw, w)
  else rw_Write "Hello World" (rw, w).

Definition allocHandler (r : Request) (fresh : SpanContext) (rw : ResponseWriter)
    (w : World) : ResponseWriter * World :=
  let ctx := req_span r in
  let (span, w) := tracer_Start ctx "alloc_business_logic" fresh w in
  let w := allocateMemoryBurst w in
  let (rw, w) := rw_Write "Alloc endpoint finished" (rw, w) in
  (rw, span_End span w).                            (* defer span.End() *)

(** What one pass of the generator's loop reads from outside. *)
Record IterEnv : Type := mkIterEnv {
  it_fresh : SpanContext;          (* identifiers of the new top-level span *)
  it_get : string + Z;             (* client.Get: the error text, or the response's status *)
  it_elapsed : Z;                  (* time.Since(start), in nanoseconds *)
  it_now : Z;                      (* time.Now() when the record is built *)
  it_Intn500 : Z                   (* rand.Intn(500) *)
}.

(** The world after [k] more evaluations of the regular expression and
    nothing else. *)
Definition cpu_spent (k : N) (w : World) : World :=
  {| allocHolder := allocHolder w;
     heap_next := heap_next w;
     history := history w;
     regexp_calls := (regexp_calls w + k)%N |}.

Section Program.

(** [Regexp.MatchString] of the standard library: whether the
    text contains a match of the pattern. *)
Variable MatchString : string -> string -> bool.

Definition regexp_MatchString (re s : string) (w : World) : bool * World :=
  (MatchString re s,
   {| allocHolder := allocHolder w;
      heap_next := heap_next w;
      history := history w;
      regexp_calls := N.succ (regexp_calls w) |}).

(** [checkEmail], running its loop [iterations] times. *)
Definition checkEmail_loop (iterations : nat) (w : World) : bool * World :=
  Go.for_range iterations
    (fun _ (st : bool * World) =>
       let (matched, w) := st in
       let (m, w) := regexp_MatchString emailRegexp slowEmailSample w in
       (if m then true else matched, w))
    (false, w).

Definition checkEmail (w : World) : bool * World :=
  checkEmail_loop 5000 w.

Definition slowHandler (r : Request) (fresh : SpanContext) (rw : ResponseWriter)
    (w : World) : ResponseWriter * World :=
  let ctx := req_span r in
  let (span, w) := tracer_Start ctx "slow_business_logic" fresh w in
  let w := Go.for_range 50 (fun _ w => snd (checkEmail w)) w in
  let (rw, w) := rw_Write "Slow endpoint finished" (rw, w) in
  (rw, span_End span w).                          (* defer span.End() *)

(** The body of the loop of [startTrafficGenerator]. *)
Definition generator_iteration (e : IterEnv) (w : World) : World :=
  let (span, w) := tracer_Start None "traffic_generator_request" (it_fresh e) w in
  let w := record_event
             (SpanSetAttributes span [("job", jobName); ("service_name", serviceName)]) w in
  let w := snd (checkEmail w) in
  let w := record_event (HttpGet ("http://localhost:8080" ++ routeSlow)) w in
  let duration := Go.Seconds (it_elapsed e) in
  let traceID := TraceID_String span in
  let spanID := SpanID_String span in
  let w :=
    match it_get e with
    | inl err =>
        let r := {| Timestamp := it_now e;
                    RecSeverity := SeverityError;
                    SeverityText := "ERROR";
                    Body := Go.Sprintf
                              "[ERROR] route=%s method=GET err=%v trace_id=%s span_id=%s"
                              [Go.AString routeSlow; Go.AError err;
                               Go.AString traceID; Go.AString spanID];
                    Attributes := [("route", StringValue routeSlow);
                                   ("error", StringValue err);
                                   ("trace_id", StringValue traceID);
                                   ("span_id", StringValue spanID)] |} in
        let w := record_event (LogEmit r) w in
        record_event (SpanRecordError span err) w
    | inr _ =>
        let w := record_event
                   (CounterAdd requestCount 1
                      [("method", "GET"); ("status", "200"); ("route", routeSlow)]) w in
        let w := record_event
                   (HistogramRecord histogram duration [("route", routeSlow)]) w in
        let w := record_event BodyClose w in
        let ms := Go.int_of_float64 (PrimFloat.mul duration 1000%float) in
        let r := {| Timestamp := it_now e;
                    RecSeverity := SeverityInfo;
                    SeverityText := "INFO";
                    Body := Go.Sprintf
                              "[OK] route=%s method=GET status=200 duration_ms=%d trace_id=%s span_id=%s"
                              [Go.AString routeSlow; Go.AInt ms;
                               Go.AString traceID; Go.AString spanID];
                    Attributes := [("route", StringValue routeSlow);
                                   ("duration_ms", IntValue ms);
                                   ("method", StringValue "GET");
                                   ("trace_id", StringValue traceID);
                                   ("span_id", StringValue spanID)] |} in
        record_event (LogEmit r) w
    end in
  let w := span_End span w in
  record_event (Sleep (Go.Millisecond * (100 + it_Intn500 e))) w.

(** [for { ... }]: one pass per element of the input stream, for as long
    a prefix of that stream as one cares to look at. *)
Definition traffic_loop (envs : list IterEnv) (w : World) : World :=
  fold_left (fun w e => generator_iteration e w) envs w.

Definition startTrafficGenerator (envs : list IterEnv) (w : World) : World :=
  traffic_loop envs (record_event (LogPrintln "Starting traffic generator...") w).

End Program.

(** Bytes held by a buffer. *)
Definition retained_bytes (holder : list Block) : N :=
  fold_right (fun b acc => (N.of_nat (List.length (blk_data b)) + acc)%N) 0%N holder.

(** Successive requests to [/alloc], served one after the other. *)
Definition serve_alloc (calls : list (Request * SpanContext)) (w : World) : World :=
  fold_left
    (fun w c => snd (allocHandler (fst c) (snd c) newResponseWriter w))
    calls w.

(** *** Reading an effect history *)

Definition emitted_logs (h : list Event) : list LogRecord :=
  flat_map (fun ev => match ev with LogEmit r => [r] | _ => [] end) h.

Definition is_counter_add (ev : Event) : bool :=
  match ev with CounterAdd _ _ _ => true | _ => false end.
Definition is_histogram_record (ev : Event) : bool :=
  match ev with HistogramRecord _ _ _ => true | _ => false end.
Definition is_span_start (ev : Event) : bool :=
  match ev with SpanStart _ _ _ => true | _ => false end.
Definition is_span_end (ev : Event) : bool :=
  match ev with SpanEnd _ => true | _ => false end.
Definition is_response_write (ev : Event) : bool :=
  match ev with ResponseWrite _ => true | _ => false end.

Definition count_events (p : Event -> bool) (h : list Event) : nat :=
  List.length (filter p h).

(** Position of the first event of a kind. *)
Fixpoint first_index (p : Event -> bool) (h : list Event) : option nat :=
  match h with
  | [] => None
  | ev :: rest => if p ev then Some 0%nat else option_map S (first_index p rest)
  end.

Definition is_digit (c : ascii) : bool :=
  let n := N_of_ascii c in ((48 <=? n) && (n <=? 57))%N.

(** An optional minus sign and then one decimal digit or more. *)
Definition is_int_literal (s : string) : bool :=
  let digits d := negb (String.eqb d "") && Go.all_chars is_digit d in
  match s with
  | String "-" rest => digits rest
  | _ => digits s
  end.

(** *** The log body formats as the specification words them

    [[OK] route=<route> method=GET status=200 duration_ms=<int> trace_id=<hex> span_id=<hex>]
    and [[ERROR] route=<route> method=GET err=<text> trace_id=<hex> span_id=<hex>]. *)

Definition spec_ok_body (route : string) (duration_ms : Z) (trace_id span_id : string)
    : string :=
  "[OK] route=" ++ route ++ " method=GET status=200 duration_ms="
    ++ Go.fmt_d duration_ms ++ " trace_id=" ++ trace_id ++ " span_id=" ++ span_id.

Definition spec_error_body (route err trace_id span_id : string) : string :=
  "[ERROR] route=" ++ route ++ " method=GET err=" ++ err
    ++ " trace_id=" ++ trace_id ++ " span_id=" ++ span_id.

(** The body the specification prescribes for the record of one pass. *)
Definition spec_body_of_pass (e : IterEnv) : string :=
  let tid := TraceID_String (it_fresh e) in
  let sid := SpanID_String (it_fresh e) in
  match it_get e with
  | inl err => spec_error_body routeSlow err tid sid
  | inr _ =>
      spec_ok_body routeSlow
        (Go.int_of_float64 (PrimFloat.mul (Go.Seconds (it_elapsed e)) 1000%float))
        tid sid
  end.

(** *** Sample inputs *)

Definition sample_matcher (re s : string) : bool := false.

Definition sample_span : SpanContext :=
  {| TraceID := [x4b; xf9; x2f; x35; x77; xb3; x4d; xa6;
                 xa3; xce; x92; x9d; x0e; x0e; x47; x36]%byte;
     SpanID := [x00; xf0; x67; xaa; x0b; xa9; x02; xb7]%byte |}.

Definition sample_child : SpanContext :=
  {| TraceID := [x01; x02; x03; x04; x05; x06; x07; x08;
                 x09; x0a; x0b; x0c; x0d; x0e; x0f; x10]%byte;
     SpanID := [x53; x99; x5c; x3f; x42; xcd; x8a; xd8]%byte |}.

Definition sample_request : Request :=
  {| Method := "GET"; Path := routeSlow; RawQuery := "";
     req_span := Some sample_span |}.

Definition sample_request_with_query : Request :=
  {| Method := "GET"; Path := routeSlow; RawQuery := "iterations=10";
     req_span := Some sample_span |}.

Definition sample_alloc_calls : list (Request * SpanContext) :=
  repeat ({| Method := "GET"; Path := routeAlloc; RawQuery := "";
             req_span := Some sample_span |}, sample_child) 25.

Definition sample_draws_fail : HelloDraws :=
  {| draw_Intn50 := 7; draw_Float32 := 1 # 100 |}.

Definition sample_draws_pass : HelloDraws :=
  {| draw_Intn50 := 49; draw_Float32 := 1 # 2 |}.

Definition sample_ok_pass : IterEnv :=
  {| it_fresh := sample_span; it_get := inr 200;
     it_elapsed := 1234567890; it_now := 1700000000; it_Intn500 := 250 |}.

Definition sample_failed_pass : IterEnv :=
  {| it_fresh := sample_child; it_get := inl "connection refused";
     it_elapsed := 2000000; it_now := 1700000001; it_Intn500 := 499 |}.

Definition sample_ok_record : LogRecord :=
  Eval vm_compute in
    hd (mkLogRecord 0 SeverityInfo "" "" [])
       (emitted_logs
          (history (generator_iteration sample_matcher sample_ok_pass initial_world))).

(** ** The CPU-bound route on one time line

    The history of a [World] and its count of evaluations are kept apart,
    so they do not say what happened between which effects.  Here the
    code of [checkEmail] and [slowHandler] is run once more, over the same
    primitives, with every step it takes written on one time line: the
    effects as they enter the history, each entry into [checkEmail], and
    each evaluation of [MatchString] with the pattern and the text it is
    given. *)

Inductive Step : Type :=
| Effect (ev : Event)
| CallCheckEmail
| RegexpMatch (re s : string).

Definition is_cpu_step (st : Step) : bool :=
  match st with Effect _ => false | _ => true end.

Record Timed : Type := mkTimed {
  now_world : World;
  timeline : list Step
}.

(** The events an operation added to the history. *)
Definition new_events (before after : World) : list Event :=
  skipn (List.length (history before)) (history after).

(** An operation on the world, with the effects it adds put on the time
    line. *)
Definition timed {A : Type} (op : World -> A * World) (t : Timed) : A * Timed :=
  let (a, w) := op (now_world t) in
  (a, {| now_world := w;
         timeline := timeline t ++ map Effect (new_events (now_world t) w) |}).

Definition mark (st : Step) (t : Timed) : Timed :=
  {| now_world := now_world t; timeline := timeline t ++ [st] |}.

Section TimedProgram.

Variable MatchString : string -> string -> bool.

Definition timed_MatchString (re s : string) (t : Timed) : bool * Timed :=
  let (m, w) := regexp_MatchString MatchString re s (now_world t) in
  (m, {| now_world := w; timeline := timeline t ++ [RegexpMatch re s] |}).

(** [checkEmail], running its loop [iterations] times. *)
Definition checkEmail_loop_timed (iterations : nat) (t : Timed) : bool * Timed :=
  let t := mark CallCheckEmail t in
  Go.for_range iterations
    (fun _ (st : bool * Timed) =>
       let (matched, t) := st in
       let (m, t) := timed_MatchString emailRegexp slowEmailSample t in
       (if m then true else matched, t))
    (false, t).

Definition checkEmail_timed (t : Timed) : bool * Timed :=
  checkEmail_loop_timed 5000 t.

Definition slowHandler_timed (r : Request) (fresh : SpanContext) (rw : ResponseWriter)
    (t : Timed) : ResponseWriter * Timed :=
  let ctx := req_span r in
  let (span, t) := timed (tracer_Start ctx "slow_business_logic" fresh) t in
  let t := Go.for_range 50 (fun _ t => snd (checkEmail_timed t)) t in
  let (rw, t) := timed (fun w => rw_Write "Slow endpoint finished" (rw, w)) t in
  (rw, snd (timed (fun w => (tt, span_End span w)) t)).   (* defer span.End() *)

End TimedProgram.

(** The time line of the workload of one request to [/slow] as the source
    lays it out: 50 calls of [checkEmail], each with 5000 evaluations of
    the fixed pattern against the fixed sample. *)
Definition slow_workload : list Step :=
  List.concat (repeat (CallCheckEmail
                    :: repeat (RegexpMatch emailRegexp slowEmailSample) 5000) 50).

(** ** The rest of [main.go] *)

(** *** Start-up: [initProvider], [startPyroscope], [initMetrics] *)

(** [os.Getenv] of the two variables the program reads; an unset
    variable reads as the empty string. *)
Record Environ : Type := mkEnviron {
  OTEL_EXPORTER_OTLP_ENDPOINT : string;
  PYROSCOPE_SERVER_ADDRESS : string
}.

(** The errors the library constructors return, [None] for [nil]. *)
Record InitOutcomes : Type := mkInitOutcomes {
  resource_New_err : option string;
  otlptracehttp_New_err : option string;
  otlpmetrichttp_New_err : option string;
  otlploghttp_New_err : option string
}.

(** A provider: the string handed to [WithEndpointURL] when its exporter
    was built, as it was given (what the exporter makes of it is the
    library's business), and the resource the provider was built with. *)
Record Provider : Type := mkProvider {
  endpoint_url_given : string;
  provider_resource : KeyValues
}.

(** [otelpyroscope.NewTracerProvider(base)]: the provider that tags every
    span for the profiler, wrapped around [base]. *)
Record PyroscopeTracerProvider : Type := otelpyroscope_NewTracerProvider {
  tp_base : Provider
}.

(** The process-wide providers of the [otel] and [global] packages. *)
Record Globals : Type := mkGlobals {
  TracerProvider : option PyroscopeTracerProvider;
  TextMapPropagator : list string;
  MeterProvider : option Provider;
  LoggerProvider : option Provider
}.

Definition no_globals : Globals :=
  {| TracerProvider := None; TextMapPropagator := [];
     MeterProvider := None; LoggerProvider := None |}.

(** What the closure returned by [initProvider] captured. *)
Record ShutdownFunc : Type := mkShutdownFunc {
  sd_baseTP : Provider;
  sd_mp : Provider;
  sd_lp : Provider
}.

(** [fmt.Errorf]: the text is that of [Sprintf], with [%w] read as [%v]. *)
Fixpoint w_as_v (format : string) : string :=
  match format with
  | EmptyString => EmptyString
  | String "%" (String verb rest) =>
      String "%" (String (if Ascii.eqb verb "w" then "v"%char else verb) (w_as_v rest))
  | String c rest => String c (w_as_v rest)
  end.

Definition fmt_Errorf (format : string) (args : list Go.Arg) : string :=
  Go.Sprintf (w_as_v format) args.

Definition initProvider (env : Environ) (out : InitOutcomes) (g : Globals)
    : Globals * (ShutdownFunc + string) :=
  let otlpEndpoint :=
    if String.eqb (OTEL_EXPORTER_OTLP_ENDPOINT env) ""
    then "localhost:4318"
    else OTEL_EXPORTER_OTLP_ENDPOINT env in
  let res := [("service.name", serviceName);
              ("service.version", serviceVersion);
              ("service_name", serviceName);
              ("job", jobName)] in
  match resource_New_err out with
  | Some err => (g, inr (fmt_Errorf "failed to create resource: %w" [Go.AError err]))
  | None =>
  match otlptracehttp_New_err out with
  | Some err => (g, inr (fmt_Errorf "failed to create trace exporter: %w" [Go.AError err]))
  | None =>
  let baseTP := {| endpoint_url_given := otlpEndpoint ++ "/v1/traces";
                   provider_resource := res |} in
  let tp := otelpyroscope_NewTracerProvider baseTP in
  let g := {| TracerProvider := Some tp;
              TextMapPropagator := ["TraceContext"; "Baggage"];
              MeterProvider := MeterProvider g;
              LoggerProvider := LoggerProvider g |} in
  match otlpmetrichttp_New_err out with
  | Some err => (g, inr (fmt_Errorf "failed to create metric exporter: %w" [Go.AError err]))
  | None =>
  let mp := {| endpoint_url_given := otlpEndpoint ++ "/v1/metrics";
               provider_resource := res |} in
  let g := {| TracerProvider := TracerProvider g;
              TextMapPropagator := TextMapPropagator g;
              MeterProvider := Some mp;
              LoggerProvider := LoggerProvider g |} in
  match otlploghttp_New_err out with
  | Some err => (g, inr (fmt_Errorf "failed to create log exporter: %w" [Go.AError err]))
  | None =>
  let lp := {| endpoint_url_given := otlpEndpoint ++ "/v1/logs";
               provider_resource := res |} in
  let g := {| TracerProvider := TracerProvider g;
              TextMapPropagator := TextMapPropagator g;
              MeterProvider := MeterProvider g;
              LoggerProvider := Some lp |} in
  (g, inl {| sd_baseTP := baseTP; sd_mp := mp; sd_lp := lp |})
  end end end end.

(** The configuration handed to [pyroscope.Start]. *)
Record PyroscopeConfig : Type := mkPyroscopeConfig {
  ApplicationName : string;
  ServerAddress : string;
  Tags : KeyValues;
  ProfileTypes : list string
}.

(** [startPyroscope]: the configuration built, and the error of
    [pyroscope.Start] handed back as it is. *)
Definition startPyroscope (env : Environ) (start_err : option string)
    : PyroscopeConfig * option string :=
  let pyroscopeAddr :=
    if String.eqb (PYROSCOPE_SERVER_ADDRESS env) ""
    then "http://localhost:4040"
    else PYROSCOPE_SERVER_ADDRESS env in
  ({| ApplicationName := serviceName;
      ServerAddress := pyroscopeAddr;
      Tags := [("env", "dev")];
      ProfileTypes := ["ProfileCPU"; "ProfileAllocObjects"; "ProfileAllocSpace";
                       "ProfileInuseObjects"; "ProfileInuseSpace"] |},
   start_err).

(** [initMetrics]: the instruments created, and the error returned. *)
Definition initMetrics (counter_err histogram_err : option string)
    : list string * option string :=
  match counter_err with
  | Some err => ([], Some err)
  | None =>
      match histogram_err with
      | Some err => ([requestCount], Some err)
      | None => ([requestCount; histogram], None)
      end
  end.

(** [startHTTPServer]: the patterns registered on the default mux, each
    with the operation name given to [otelhttp.NewHandler].  The goroutine
    that listens on [:8080] runs beside [main] and is not part of it. *)
Definition startHTTPServer (routes : list (string * string)) : list (string * string) :=
  (routes ++ [(routeFast, "Hello"); (routeSlow, "Slow"); (routeAlloc, "Alloc")])%list.

(** A line written through the standard [log] package. *)
Definition log_Printf (format : string) (args : list Go.Arg) (w : World) : World :=
  record_event (LogPrintln (Go.Sprintf format args)) w.

(** What [main] reads from outside. *)
Record MainInputs : Type := mkMainInputs {
  in_environ : Environ;
  in_init : InitOutcomes;
  in_pyroscope_err : option string;
  in_counter_err : option string;
  in_histogram_err : option string;
  in_passes : list IterEnv
}.

(** The process as the goroutine of [main] leaves it: [exit_status] is
    [Some 1] once [main] called [log.Fatalf], [None] while the generator
    is still looping.  The goroutine started by [startHTTPServer], which
    calls [log.Fatal] should [ListenAndServe] fail, is not part of it. *)
Record Process : Type := mkProcess {
  proc_globals : Globals;
  proc_pyroscope : option PyroscopeConfig;
  proc_instruments : list string;
  proc_routes : list (string * string);
  proc_world : World;
  exit_status : option Z
}.

(** *** Requests and generator passes, interleaved *)

Inductive Action : Type :=
| Hello (r : Request) (d : HelloDraws)
| Slow (r : Request) (fresh : SpanContext)
| Alloc (r : Request) (fresh : SpanContext)
| Pass (e : IterEnv).

Definition is_slow (a : Action) : bool :=
  match a with Slow _ _ => true | _ => false end.
Definition is_pass (a : Action) : bool :=
  match a with Pass _ => true | _ => false end.

(** The requests to [/alloc] among the actions, in order. *)
Definition alloc_calls (actions : list Action) : list (Request * SpanContext) :=
  flat_map (fun a => match a with Alloc r fresh => [(r, fresh)] | _ => [] end) actions.

Section MoreProgram.

Variable MatchString : string -> string -> bool.

(** [step]: the span is handed back open; the derived context is dropped. *)
Definition step (ctx : option SpanContext) (name : string) (fresh : SpanContext)
    (w : World) : SpanContext * World :=
  let (span, w) := tracer_Start ctx name fresh w in
  let w := snd (checkEmail MatchString w) in
  (span, w).

(** One request served on a fresh response, or one pass of the generator. *)
Definition perform (a : Action) (w : World) : World :=
  match a with
  | Hello r d => snd (helloHandler r d newResponseWriter w)
  | Slow r fresh => snd (slowHandler MatchString r fresh newResponseWriter w)
  | Alloc r fresh => snd (allocHandler r fresh newResponseWriter w)
  | Pass e => generator_iteration MatchString e w
  end.

Definition run (actions : list Action) (w : World) : World :=
  fold_left (fun w a => perform a w) actions w.

Definition main (inp : MainInputs) : Process :=
  match initProvider (in_environ inp) (in_init inp) no_globals with
  | (g, inr err) =>
      {| proc_globals := g; proc_pyroscope := None; proc_instruments := [];
         proc_routes := [];
         proc_world := log_Printf "failed to init OTel: %v" [Go.AError err] initial_world;
         exit_status := Some 1 |}
  | (g, inl shutdown) =>
      (* defer shutdown(ctx): runs only if main returns *)
      let (cfg, perr) := startPyroscope (in_environ inp) (in_pyroscope_err inp) in
      let w := match perr with
               | Some err => log_Printf "failed to start pyroscope: %v" [Go.AError err]
                               initial_world
               | None => initial_world
               end in
      match initMetrics (in_counter_err inp) (in_histogram_err inp) with
      | (instruments, Some err) =>
          {| proc_globals := g; proc_pyroscope := Some cfg;
             proc_instruments := instruments; proc_routes := [];
             proc_world := log_Printf "failed to init metrics: %v" [Go.AError err] w;
             exit_status := Some 1 |}
      | (instruments, None) =>
          {| proc_globals := g; proc_pyroscope := Some cfg;
             proc_instruments := instruments;
             proc_routes := startHTTPServer [];
             proc_world := startTrafficGenerator MatchString (in_passes inp) w;
             exit_status := None |}
      end
  end.

End MoreProgram.

(** ** [FaultController.java]: the same three faults on the Java side *)

Module FaultController.

(** Java's [int] and [long] are two's complement and wrap around. *)
Definition wrap (bits z : Z) : Z :=
  (z + 2 ^ (bits - 1)) mod 2 ^ bits - 2 ^ (bits - 1).
Definition int (z : Z) : Z := wrap 32 z.
Definition long (z : Z) : Z := wrap 64 z.

Definition EMAIL_PATTERN : string :=
  "^(\w+([-.][A-Za-z0-9]+)*){3,18}@\w+([-.][A-Za-z0-9]+)*\.\w+([-.][A-Za-z0-9]+)*$".
Definition SLOW_EMAIL_SAMPLE : string :=
  "rosamariachoccelahuaararanda70@gmail.comnnbbb.bbNG.bbb.n¿.?n".

Definition ALLOC_HOLDER_MAX_BYTES : Z := int (int (256 * 1024) * 1024).

Inductive JValue : Type :=
| JBoolean (b : bool)
| JInteger (i : Z)
| JLong (l : Z).

(** A [JSONObject] maps keys to values; [put] replaces the value of a key
    that is present. *)
Definition JSONObject : Type := list (string * JValue).

Definition put (key : string) (value : JValue) (o : JSONObject) : JSONObject :=
  (filter (fun kv => negb (String.eqb (fst kv) key)) o ++ [(key, value)])%list.

Definition get (key : string) (o : JSONObject) : option JValue :=
  option_map snd (find (fun kv => String.eqb (fst kv) key) o).

(** A call of [logger.info]: the template and its arguments. *)
Record LogLine : Type := mkLogLine {
  template : string;
  arguments : list JValue
}.

Inductive Throwable : Type :=
| NegativeArraySizeException (size : Z).

Record State : Type := mkState {
  ALLOC_HOLDER : list (list Z);   (* the byte arrays held, oldest first *)
  allocHolderBytes : Z;
  matcher_calls : N;              (* evaluations of the pattern so far *)
  log : list LogLine
}.

Definition initial_state : State :=
  {| ALLOC_HOLDER := []; allocHolderBytes := 0; matcher_calls := 0%N; log := [] |}.

Definition logger_info (tpl : string) (args : list JValue) (st : State) : State :=
  {| ALLOC_HOLDER := ALLOC_HOLDER st;
     allocHolderBytes := allocHolderBytes st;
     matcher_calls := matcher_calls st;
     log := (log st ++ [{| template := tpl; arguments := args |}])%list |}.

(** [new byte[n]], on a heap that has room for it. *)
Definition new_bytes (n : Z) : Throwable + list Z :=
  if n <? 0 then inl (NegativeArraySizeException n)
  else inr (repeat 0 (Z.to_nat n)).

(** [block[i] = v] for an index within the array. *)
Fixpoint set_at (i : nat) (v : Z) (block : list Z) : list Z :=
  match block, i with
  | [], _ => []
  | _ :: rest, O => v :: rest
  | b :: rest, S i' => b :: set_at i' v rest
  end.

(** [for (int i = ...; i < block.length; i += 4096) block[i] = 1], from
    index [i] on; one unit of fuel per pass. *)
Fixpoint touch_loop (fuel : nat) (i : Z) (block : list Z) : list Z :=
  match fuel with
  | O => block
  | S fuel' =>
      if i <? Z.of_nat (List.length block)
      then touch_loop fuel' (int (i + 4096)) (set_at (Z.to_nat i) 1 block)
      else block
  end.

Definition touch (block : list Z) : list Z :=
  touch_loop (List.length block) 0 block.

(** [allocateMemoryBurst(bytes, hold)]. *)
Definition allocateMemoryBurst (bytes : Z) (hold : bool) (st : State)
    : (Throwable + Z) * State :=
  match new_bytes bytes with
  | inl exn => (inl exn, st)
  | inr block0 =>
      let block := touch block0 in
      if negb hold then (inr bytes, st)
      else
        let newTotal := int (allocHolderBytes st + bytes) in
        if newTotal >? ALLOC_HOLDER_MAX_BYTES then (inr 0, st)
        else (inr bytes,
              {| ALLOC_HOLDER := (ALLOC_HOLDER st ++ [block])%list;
                 allocHolderBytes := newTotal;
                 matcher_calls := matcher_calls st;
                 log := log st |})
  end.

(** [if (clear) { ALLOC_HOLDER.clear(); allocHolderBytes = 0; }]. *)
Definition after_clear (clear : bool) (st : State) : State :=
  if clear
  then {| ALLOC_HOLDER := []; allocHolderBytes := 0;
          matcher_calls := matcher_calls st; log := log st |}
  else st.

(** [alloc(mb, hold, clear)]; [t0] and [t1] are the two readings of
    [System.nanoTime()]. *)
Definition alloc (mb : Z) (hold clear : bool) (t0 t1 : Z) (st : State)
    : (Throwable + JSONObject) * State :=
  let st := after_clear clear st in
  let bytes := int (int (Z.max 1 mb * 1024) * 1024) in
  let startNs := t0 in
  match allocateMemoryBurst bytes hold st with
  | (inl exn, st) => (inl exn, st)
  | (inr actuallyAllocated, st) =>
      let costMs := Z.quot (long (t1 - startNs)) 1000000 in
      let resp := put "cost_ms" (JLong costMs)
                  (put "holder_bytes" (JInteger (allocHolderBytes st))
                  (put "hold" (JBoolean hold)
                  (put "allocated_bytes" (JInteger actuallyAllocated)
                  (put "requested_mb" (JInteger mb)
                  (put "ok" (JBoolean true) []))))) in
      (inr resp,
       logger_info
         "alloc done: requested_mb={}, allocated_bytes={}, hold={}, holder_bytes={}, cost_ms={}"
         [JInteger mb; JInteger actuallyAllocated; JBoolean hold;
          JInteger (allocHolderBytes st); JLong costMs] st)
  end.

(** Bytes in the arrays held. *)
Definition held_bytes (holder : list (list Z)) : Z :=
  fold_right (fun block acc => Z.of_nat (List.length block) + acc) 0 holder.

(** The counter agrees with the arrays held and respects the cap. *)
Definition accounted (st : State) : Prop :=
  allocHolderBytes st = held_bytes (ALLOC_HOLDER st)
  /\ 0 <= allocHolderBytes st <= ALLOC_HOLDER_MAX_BYTES.

Section WithMatcher.

(** [Pattern.matcher(input).matches()]. *)
Variable matches : string -> string -> bool.

Definition matcher_matches (pattern input : string) (st : State) : bool * State :=
  (matches pattern input,
   {| ALLOC_HOLDER := ALLOC_HOLDER st;
      allocHolderBytes := allocHolderBytes st;
      matcher_calls := N.succ (matcher_calls st);
      log := log st |}).

(** [checkEmail(loops)]. *)
Definition checkEmail (loops : Z) (st : State) : bool * State :=
  let n := Z.max 1 loops in
  Go.for_range (Z.to_nat n)
    (fun _ (acc : bool * State) =>
       let (matched, st) := acc in
       let (m, st) := matcher_matches EMAIL_PATTERN SLOW_EMAIL_SAMPLE st in
       (if m then true else matched, st))
    (false, st).

(** [slow(loops)]. *)
Definition slow (loops : Z) (t0 t1 : Z) (st : State) : JSONObject * State :=
  let startNs := t0 in
  let (matched, st) := checkEmail loops st in
  let costMs := Z.quot (long (t1 - startNs)) 1000000 in
  let resp := put "cost_ms" (JLong costMs)
              (put "loops" (JInteger loops)
              (put "matched" (JBoolean matched)
              (put "ok" (JBoolean true) []))) in
  (resp,
   logger_info "slow done: loops={}, cost_ms={}, matched={}"
     [JInteger loops; JLong costMs; JBoolean matched] st).

(** The loop of [cpu]: one reading of the clock per test of the
    condition; [None] when the readings run out before the loop ends. *)
Fixpoint cpu_loop (clock : list Z) (untilNs acc : Z) (st : State)
    : option (Z * list Z * State) :=
  match clock with
  | [] => None
  | now :: clock' =>
      if now <? untilNs
      then
        let (m, st) := matcher_matches EMAIL_PATTERN SLOW_EMAIL_SAMPLE st in
        let acc := if m then long (acc + 1) else acc in
        let acc := long (acc + Z.lxor (long (Z.shiftl acc 1))
                                      (long 0x9e3779b97f4a7c15)) in
        cpu_loop clock' untilNs acc st
      else Some (acc, clock', st)
  end.

(** [cpu(ms)], reading [System.nanoTime()] off [clock]. *)
Definition cpu (ms : Z) (clock : list Z) (st : State) : option (JSONObject * State) :=
  match clock with
  | [] => None
  | startNs :: clock =>
      let untilNs := long (startNs + long (Z.max 1 ms * 1000000)) in
      match cpu_loop clock untilNs 0 st with
      | Some (acc, t_end :: _, st) =>
          let costMs := Z.quot (long (t_end - startNs)) 1000000 in
          let resp := put "acc" (JLong acc)
                      (put "cost_ms" (JLong costMs)
                      (put "ms" (JInteger ms)
                      (put "ok" (JBoolean true) []))) in
          Some (resp,
                logger_info "cpu done: ms={}, cost_ms={}, acc={}"
                  [JInteger ms; JLong costMs; JLong acc] st)
      | _ => None
      end
  end.

End WithMatcher.

(** Successive calls [alloc(mb, true, false)]. *)
Definition alloc_repeatedly (mb : Z) (n : nat) (st : State) : State :=
  Nat.iter n (fun st => snd (alloc mb true false 0 0 st)) st.

End FaultController.

(** *** More sample inputs *)

Definition sample_environ : Environ :=
  {| OTEL_EXPORTER_OTLP_ENDPOINT := "http://alloy:4318"; PYROSCOPE_SERVER_ADDRESS := "" |}.

Definition sample_metric_exporter_fails : InitOutcomes :=
  {| resource_New_err := None; otlptracehttp_New_err := None;
     otlpmetrichttp_New_err := Some "parse endpoint url: invalid port";
     otlploghttp_New_err := None |}.

Definition sample_init_ok : InitOutcomes :=
  {| resource_New_err := None; otlptracehttp_New_err := None;
     otlpmetrichttp_New_err := None; otlploghttp_New_err := None |}.

Definition sample_main_inputs : MainInputs :=
  {| in_environ := sample_environ; in_init := sample_init_ok;
     in_pyroscope_err := Some "connection refused";
     in_counter_err := None; in_histogram_err := None;
     in_passes := [sample_ok_pass; sample_failed_pass] |}.

(** A holder with one array of 1 MiB. *)
Definition java_sample_held : FaultController.State :=
  {| FaultController.ALLOC_HOLDER := [repeat 0 (Z.to_nat 1048576)];
     FaultController.allocHolderBytes := 1048576;
     FaultController.matcher_calls := 0%N;
     FaultController.log := [] |}.

(** ** The embedding at work *)

Example Sprintf_sample :
  Go.Sprintf "route=%s n=%d 100%% %v" [Go.AString "/slow"; Go.AInt (-12); Go.AError "EOF"]
  = "route=/slow n=-12 100% EOF".
Proof. reflexivity. Qed.

Example duration_ms_sample :
  Go.int_of_float64 (PrimFloat.mul (Go.Seconds 1234567890) 1000%float) = 1234.
Proof. vm_compute. reflexivity. Qed.

Example sample_ok_record_body :
  Body sample_ok_record
  = "[OK] route=/slow method=GET status=200 duration_ms=1234 trace_id=4bf92f3577b34da6a3ce929d0e0e4736 span_id=00f067aa0ba902b7".
Proof. reflexivity. Qed.

Example sample_failed_pass_history :
  map (fun ev => match ev with
                 | LogEmit r => Body r
                 | SpanRecordError _ err => "RecordError " ++ err
                 | SpanStart name _ _ => "Start " ++ name
                 | SpanEnd _ => "End"
                 | _ => ""
                 end)
      (history (generator_iteration sample_matcher sample_failed_pass initial_world))
  = ["Start traffic_generator_request"; ""; "";
     "[ERROR] route=/slow method=GET err=connection refused trace_id=0102030405060708090a0b0c0d0e0f10 span_id=53995c3f42cd8ad8";
     "RecordError connection refused"; "End"; ""].
Proof. vm_compute. reflexivity. Qed.

Example small_batches_fifo :
  map blk_addr (allocHolder (Nat.iter 25 (allocateMemoryBurst_sized 3) initial_world))
  = seq 5 20
  /\ map blk_data (allocHolder (Nat.iter 2 (allocateMemoryBurst_sized 3) initial_world))
     = [[0; 1; 2]; [0; 1; 2]].
Proof. vm_compute. split; reflexivity. Qed.

Example helloHandler_samples :
  fst (helloHandler sample_request sample_draws_fail newResponseWriter initial_world)
  = {| wroteHeader := true; status := 500; body := "" |}
  /\ fst (helloHandler sample_request sample_draws_pass newResponseWriter initial_world)
     = {| wroteHeader := true; status := 200; body := "Hello World" |}.
Proof. vm_compute. split; reflexivity. Qed.

(** The time line of a call of [checkEmail] cut down to two passes of its
    loop, after one effect. *)
Example checkEmail_loop_timed_sample :
  timeline (snd (checkEmail_loop_timed sample_matcher 2
                   (snd (timed (tracer_Start (req_span sample_request) "slow_business_logic" sample_child)
                           (mkTimed initial_world [])))))
  = [Effect (SpanStart "slow_business_logic"
               (fst (tracer_Start (req_span sample_request) "slow_business_logic" sample_child
                       initial_world))
               (req_span sample_request));
     CallCheckEmail;
     RegexpMatch emailRegexp slowEmailSample;
     RegexpMatch emailRegexp slowEmailSample]
  /\ regexp_calls (now_world (snd (checkEmail_loop_timed sample_matcher 2
                                     (mkTimed initial_world []))))
     = 2%N.
Proof. vm_compute. split; reflexivity. Qed.

(** ** Properties of the retention buffer *)

Section RetentionBuffer.

Lemma fill_from_length : forall batch i,
  List.length (fill_from i batch) = List.length batch.
Proof.
  induction batch as [|b batch IH]; intros i; cbn [fill_from List.length].
  - reflexivity.
  - now rewrite IH.
Qed.


Lemma map_tl {A B : Type} (f : A -> B) (l : list A) :
  map f (tl l) = tl (map f l).
Proof. now destruct l. Qed.

Lemma allocHolder_allocHandler : forall r fresh rw w,
  allocHolder (snd (allocHandler r fresh rw w)) = allocHolder (allocateMemoryBurst w)
  /\ heap_next (snd (allocHandler r fresh rw w)) = S (heap_next w).
Proof. intros. split; reflexivity. Qed.

Lemma serve_alloc_snoc : forall calls c w,
  serve_alloc (calls ++ [c]) w
  = snd (allocHandler (fst c) (snd c) newResponseWriter (serve_alloc calls w)).
Proof. intros. unfold serve_alloc. now rewrite fold_left_app. Qed.

(** After [n] calls the buffer holds, oldest first, the arrays handed out
    by the last [min n maxRetained] calls. *)
Lemma serve_alloc_addresses : forall calls,
  let n := List.length calls in
  let w := serve_alloc calls initial_world in
  heap_next w = n
  /\ map blk_addr (allocHolder w)
     = seq (n - Nat.min n maxRetained) (Nat.min n maxRetained).
Proof.
  induction calls as [|c calls IH] using rev_ind; [split; reflexivity|].
  cbv zeta in *. destruct IH as [Hnext Hmap].
  rewrite serve_alloc_snoc, length_app. cbn [List.length].
  destruct (allocHolder_allocHandler (fst c) (snd c) newResponseWriter
              (serve_alloc calls initial_world)) as [-> ->].
  split; [lia|].
  unfold allocateMemoryBurst, allocateMemoryBurst_sized. cbn [allocHolder].
  rewrite map_app. cbn [map blk_addr]. rewrite Hnext.
  assert (Hlen : List.length (allocHolder (serve_alloc calls initial_world))
                 = Nat.min (List.length calls) maxRetained).
  { rewrite <- (length_map blk_addr), Hmap. apply length_seq. }
  rewrite Hlen.
  remember (List.length calls) as n eqn:Hn. clear Hn Hlen Hnext.
  assert (Hcap : maxRetained = S 19) by reflexivity.
  remember maxRetained as cap eqn:Hdef. clear Hdef.
  remember 19%nat as k eqn:Hk. clear Hk. subst cap.
  destruct (Nat.leb_spec (S k) (Nat.min n (S k))) as [Hfull|Hroom].
  - rewrite map_tl, Hmap.
    replace (Nat.min n (S k)) with (S k) by lia.
    replace (Nat.min (n + 1) (S k)) with (S k) by lia.
    rewrite <- cons_seq. cbn [tl].
    rewrite (seq_S k). f_equal; [f_equal; lia | f_equal; lia].
  - rewrite Hmap.
    replace (Nat.min n (S k)) with n by lia.
    replace (Nat.min (n + 1) (S k)) with (S n) by lia.
    rewrite seq_S. f_equal; [f_equal; lia | f_equal; lia].
Qed.

Lemma serve_alloc_block_sizes : forall calls,
  Forall (fun b => N.of_nat (List.length (blk_data b)) = (chunkSize * chunkCount)%N)
         (allocHolder (serve_alloc calls initial_world)).
Proof.
  induction calls as [|c calls IH] using rev_ind; [constructor|].
  rewrite serve_alloc_snoc.
  destruct (allocHolder_allocHandler (fst c) (snd c) newResponseWriter
              (serve_alloc calls initial_world)) as [-> _].
  unfold allocateMemoryBurst, allocateMemoryBurst_sized. cbn [allocHolder].
  apply Forall_app. split.
  - destruct (maxRetained <=? _)%nat; [|exact IH].
    destruct (allocHolder (serve_alloc calls initial_world)); [constructor|].
    cbn [tl]. now inversion IH.
  - constructor; [|constructor]. cbn [blk_data].
    rewrite fill_from_length. unfold Go.make_bytes. rewrite repeat_length.
    apply N2Nat.id.
Qed.

Lemma retained_bytes_uniform : forall size holder,
  Forall (fun b => N.of_nat (List.length (blk_data b)) = size) holder ->
  retained_bytes holder = (N.of_nat (List.length holder) * size)%N.
Proof.
  intros size holder H. induction H as [|b holder Hb _ IH].
  - reflexivity.
  - cbn [retained_bytes fold_right List.length]. fold (retained_bytes holder).
    rewrite IH, Hb. lia.
Qed.

Lemma serve_alloc_length : forall calls,
  List.length (allocHolder (serve_alloc calls initial_world))
  = Nat.min (List.length calls) maxRetained.
Proof.
  intros calls. destruct (serve_alloc_addresses calls) as [_ Hmap].
  rewrite <- (length_map blk_addr), Hmap. apply length_seq.
Qed.

Lemma serve_alloc_In_addr : forall calls b,
  In b (allocHolder (serve_alloc calls initial_world)) ->
  (List.length calls - Nat.min (List.length calls) maxRetained <= blk_addr b
   < List.length calls)%nat.
Proof.
  intros calls b Hin. destruct (serve_alloc_addresses calls) as [_ Hmap].
  apply (in_map blk_addr) in Hin. rewrite Hmap in Hin.
  apply in_seq in Hin. lia.
Qed.

(** C1. Whatever the sequence of requests to [/alloc], served from the
    empty buffer: after every prefix of it the buffer holds at most
    [maxRetained = 20] blocks; once 21 requests were served it holds
    exactly 20 and the block appended by the first request is gone; once
    25 were served it holds exactly 20 blocks, those of requests 6 to 25
    in that order, none of the first five, 1000 MiB in all. *)
Theorem retention_buffer_fifo :
  forall calls : list (Request * SpanContext),
    let holder_after k := allocHolder (serve_alloc (firstn k calls) initial_world) in
    (forall k, (List.length (holder_after k) <= maxRetained)%nat)
    /\ ((S maxRetained <= List.length calls)%nat ->
        List.length (holder_after (S maxRetained)) = maxRetained
        /\ holder_after 1%nat <> []
        /\ forall b, In b (holder_after 1%nat) -> ~ In b (holder_after (S maxRetained)))
    /\ ((25 <= List.length calls)%nat ->
        List.length (holder_after 25%nat) = 20%nat
        /\ (forall b, In b (holder_after 5%nat) -> ~ In b (holder_after 25%nat))
        /\ map blk_addr (holder_after 25%nat) = seq 5 20
        /\ retained_bytes (holder_after 25%nat) = (1000 * (1024 * 1024))%N).
Proof.
  intros calls holder_after.
  assert (Hlen : forall k, (k <= List.length calls)%nat ->
                           List.length (firstn k calls) = k).
  { intros k Hk. rewrite length_firstn. lia. }
  split; [|split].
  - intros k. unfold holder_after. rewrite serve_alloc_length. lia.
  - intros Hn. unfold holder_after. unfold maxRetained in Hn.
    split; [|split].
    + rewrite serve_alloc_length, Hlen by (unfold maxRetained; lia).
      reflexivity.
    + intros Hnil. apply (f_equal (@List.length Block)) in Hnil.
      rewrite serve_alloc_length, Hlen in Hnil by lia. discriminate Hnil.
    + intros b H1 H21.
      apply serve_alloc_In_addr in H1, H21.
      rewrite Hlen in H1 by lia.
      rewrite Hlen in H21 by (unfold maxRetained; lia).
      unfold maxRetained in *. lia.
  - intros Hn. unfold holder_after.
    assert (H25 : List.length (allocHolder (serve_alloc (firstn 25 calls) initial_world))
                  = 20%nat).
    { rewrite serve_alloc_length, Hlen by lia. reflexivity. }
    split; [exact H25|split; [|split]].
    + intros b H5 H25'.
      apply serve_alloc_In_addr in H5, H25'.
      rewrite Hlen in H5, H25' by lia.
      unfold maxRetained in *. lia.
    + destruct (serve_alloc_addresses (firstn 25 calls)) as [_ Hmap].
      rewrite Hmap, Hlen by lia. reflexivity.
    + rewrite (retained_bytes_uniform _ _ (serve_alloc_block_sizes _)), H25.
      reflexivity.
Qed.

End RetentionBuffer.

(** ** Properties of the CPU-bound workload *)

Section Workload.

Variable MatchString : string -> string -> bool.

Lemma for_range_S {S : Type} (n : nat) (body : nat -> S -> S) (s : S) :
  Go.for_range (Datatypes.S n) body s = body n (Go.for_range n body s).
Proof.
  unfold Go.for_range. rewrite seq_S, fold_left_app. reflexivity.
Qed.

Lemma cpu_spent_0 : forall w, cpu_spent 0 w = w.
Proof. intros [h n ev c]. unfold cpu_spent. cbn. now rewrite N.add_0_r. Qed.

Lemma cpu_spent_add : forall j k w,
  cpu_spent k (cpu_spent j w) = cpu_spent (j + k) w.
Proof. intros. unfold cpu_spent. cbn. now rewrite N.add_assoc. Qed.

Lemma checkEmail_loop_spec : forall iterations w,
  checkEmail_loop MatchString iterations w
  = ((0 <? iterations)%nat && MatchString emailRegexp slowEmailSample,
     cpu_spent (N.of_nat iterations) w).
Proof.
  induction iterations as [|n IH]; intros w.
  - unfold checkEmail_loop, Go.for_range. cbn [seq fold_left].
    now rewrite cpu_spent_0.
  - unfold checkEmail_loop in *. rewrite for_range_S, IH.
    unfold regexp_MatchString, cpu_spent. cbn [allocHolder heap_next history regexp_calls].
    replace (N.succ (regexp_calls w + N.of_nat n)) with (regexp_calls w + N.of_nat (S n))%N by lia.
    f_equal.
    destruct (MatchString emailRegexp slowEmailSample), n; reflexivity.
Qed.

Lemma checkEmail_spec : forall w,
  checkEmail MatchString w
  = (MatchString emailRegexp slowEmailSample, cpu_spent 5000 w).
Proof.
  intros w. unfold checkEmail. rewrite checkEmail_loop_spec. reflexivity.
Qed.

(** C3. [checkEmail] returns, whatever the state of the process, the
    value of the one match of the fixed pattern against the fixed sample,
    hence the same value at every call, and leaves the buffer, the
    allocator and the effect history as they were: all it spends is 5000
    evaluations of the expression. *)
Theorem checkEmail_deterministic_pure : forall w,
  fst (checkEmail MatchString w) = MatchString emailRegexp slowEmailSample
  /\ (forall w', fst (checkEmail MatchString w') = fst (checkEmail MatchString w))
  /\ allocHolder (snd (checkEmail MatchString w)) = allocHolder w
  /\ heap_next (snd (checkEmail MatchString w)) = heap_next w
  /\ history (snd (checkEmail MatchString w)) = history w
  /\ regexp_calls (snd (checkEmail MatchString w)) = (regexp_calls w + 5000)%N.
Proof.
  intros w. rewrite checkEmail_spec. cbn [fst snd]. repeat split.
  intros w'. now rewrite checkEmail_spec.
Qed.

Lemma repeat_checkEmail : forall n w,
  Go.for_range n (fun _ w => snd (checkEmail MatchString w)) w
  = cpu_spent (N.of_nat n * 5000) w.
Proof.
  induction n as [|n IH]; intros w.
  - unfold Go.for_range. cbn [seq fold_left]. now rewrite cpu_spent_0.
  - rewrite for_range_S, IH, checkEmail_spec. cbn [snd].
    rewrite cpu_spent_add. f_equal. lia.
Qed.

Lemma slowHandler_spec : forall r fresh rw w,
  let span := fst (tracer_Start (req_span r) "slow_business_logic" fresh w) in
  slowHandler MatchString r fresh rw w
  = ({| wroteHeader := true;
        status := if wroteHeader rw then status rw else StatusOK;
        body := body rw ++ "Slow endpoint finished" |},
     {| allocHolder := allocHolder w;
        heap_next := heap_next w;
        history := history w
                   ++ [SpanStart "slow_business_logic" span (req_span r);
                       ResponseWrite "Slow endpoint finished";
                       SpanEnd span];
        regexp_calls := regexp_calls w + 250000 |}).
Proof.
  intros r fresh rw w span. unfold slowHandler.
  unfold tracer_Start in *. cbn [fst] in span. fold span.
  rewrite repeat_checkEmail.
  unfold rw_Write, span_End, record_event, cpu_spent.
  cbn [allocHolder heap_next history regexp_calls].
  rewrite <- !app_assoc. reflexivity.
Qed.

Lemma new_events_record_event : forall ev w,
  new_events w (record_event ev w) = [ev].
Proof.
  intros ev w. unfold new_events, record_event. cbn [history].
  rewrite skipn_app, skipn_all, Nat.sub_diag. reflexivity.
Qed.

Lemma new_events_cpu_spent : forall k ev w,
  new_events (cpu_spent k w) (record_event ev (cpu_spent k w)) = [ev].
Proof. intros. apply new_events_record_event. Qed.

Lemma checkEmail_loop_timed_spec : forall iterations t,
  checkEmail_loop_timed MatchString iterations t
  = ((0 <? iterations)%nat && MatchString emailRegexp slowEmailSample,
     {| now_world := cpu_spent (N.of_nat iterations) (now_world t);
        timeline := timeline t
                    ++ CallCheckEmail
                       :: repeat (RegexpMatch emailRegexp slowEmailSample) iterations |}).
Proof.
  induction iterations as [|n IH]; intros t.
  - unfold checkEmail_loop_timed, Go.for_range, mark.
    cbn [seq fold_left repeat now_world timeline]. now rewrite cpu_spent_0.
  - unfold checkEmail_loop_timed in *. rewrite for_range_S, IH.
    unfold timed_MatchString, regexp_MatchString, cpu_spent.
    cbn [now_world timeline allocHolder heap_next history regexp_calls].
    replace (N.succ (regexp_calls (now_world t) + N.of_nat n))
      with (regexp_calls (now_world t) + N.of_nat (S n))%N by lia.
    rewrite <- app_assoc. cbn [app].
    rewrite <- repeat_cons. cbn [repeat].
    f_equal. destruct (MatchString emailRegexp slowEmailSample), n; reflexivity.
Qed.

Lemma concat_repeat_snoc {A : Type} (b : list A) (n : nat) :
  (List.concat (repeat b n) ++ b)%list = List.concat (repeat b (S n)).
Proof.
  induction n as [|n IH]; cbn [repeat List.concat] in *.
  - now rewrite app_nil_r.
  - now rewrite <- app_assoc, IH.
Qed.

Lemma repeat_checkEmail_timed : forall n t,
  Go.for_range n (fun _ t => snd (checkEmail_timed MatchString t)) t
  = {| now_world := cpu_spent (N.of_nat n * 5000) (now_world t);
       timeline := timeline t
                   ++ List.concat
                        (repeat (CallCheckEmail
                                   :: repeat (RegexpMatch emailRegexp slowEmailSample) 5000)
                           n) |}.
Proof.
  induction n as [|n IH]; intros t.
  - unfold Go.for_range. cbn [seq fold_left repeat List.concat].
    rewrite app_nil_r, cpu_spent_0. now destruct t.
  - rewrite for_range_S, IH. unfold checkEmail_timed.
    rewrite checkEmail_loop_timed_spec. cbn [snd now_world timeline].
    rewrite cpu_spent_add, <- app_assoc, concat_repeat_snoc.
    f_equal. f_equal. lia.
Qed.

(** The timed handler is [slowHandler] with its steps written down. *)
Lemma slowHandler_timed_spec : forall r fresh rw t,
  let span := fst (tracer_Start (req_span r) "slow_business_logic" fresh (now_world t)) in
  slowHandler_timed MatchString r fresh rw t
  = (fst (slowHandler MatchString r fresh rw (now_world t)),
     {| now_world := snd (slowHandler MatchString r fresh rw (now_world t));
        timeline := timeline t
                    ++ Effect (SpanStart "slow_business_logic" span (req_span r))
                       :: slow_workload
                    ++ [Effect (ResponseWrite "Slow endpoint finished");
                        Effect (SpanEnd span)] |}).
Proof.
  intros r fresh rw t span. subst span.
  unfold slowHandler_timed, slowHandler, timed, tracer_Start.
  rewrite new_events_record_event, repeat_checkEmail, repeat_checkEmail_timed.
  cbn [now_world timeline map fst snd].
  unfold rw_Write, span_End. rewrite !new_events_cpu_spent.
  cbn [now_world timeline map fst snd].
  rewrite (new_events_record_event (SpanEnd _)).
  cbn [map]. unfold slow_workload.
  rewrite <- !app_assoc. reflexivity.
Qed.

Lemma workload_cpu_steps : forall loops calls,
  let workload :=
    List.concat (repeat (CallCheckEmail
                           :: repeat (RegexpMatch emailRegexp slowEmailSample) loops)
                   calls) in
  filter is_cpu_step workload = workload.
Proof.
  intros loops calls. cbv zeta.
  induction calls as [|calls IH]; [reflexivity|].
  cbn [repeat List.concat]. rewrite filter_app, IH. f_equal.
  cbn [filter is_cpu_step]. f_equal. clear IH.
  induction loops as [|loops IHl]; [reflexivity|].
  cbn [repeat filter is_cpu_step]. now rewrite IHl.
Qed.

Lemma slow_workload_cpu_steps : filter is_cpu_step slow_workload = slow_workload.
Proof. exact (workload_cpu_steps 5000 50). Qed.

Lemma slowHandler_timed_cpu_steps : forall r fresh rw w,
  filter is_cpu_step
    (timeline (snd (slowHandler_timed MatchString r fresh rw (mkTimed w []))))
  = slow_workload.
Proof.
  intros r fresh rw w. rewrite slowHandler_timed_spec. cbn [snd timeline].
  generalize slow_workload_cpu_steps. generalize slow_workload as workload.
  intros workload Hworkload.
  cbn [app filter is_cpu_step]. rewrite filter_app, Hworkload.
  cbn [filter is_cpu_step]. apply app_nil_r.
Qed.

Lemma checkEmail_timed_spec : forall t,
  checkEmail_timed MatchString t
  = (MatchString emailRegexp slowEmailSample,
     {| now_world := snd (checkEmail MatchString (now_world t));
        timeline := timeline t
                    ++ CallCheckEmail
                       :: repeat (RegexpMatch emailRegexp slowEmailSample) 5000 |}).
Proof.
  intros t. unfold checkEmail_timed, checkEmail.
  rewrite checkEmail_loop_timed_spec, checkEmail_loop_spec. reflexivity.
Qed.

(** C4, as the code has it.  Serving a request to [/slow] calls
    [checkEmail] exactly 50 times, and each call evaluates [MatchString]
    exactly 5000 times, every time with the fixed pattern [emailRegexp]
    and the fixed text [slowEmailSample]: these 50 entries and 250000
    evaluations, in this order, are all the CPU steps on the time line of
    the request, and 250000 and 5000 are what the counters of the world
    gain.  The counts are constants of the program; the method, the path
    and the query of the request play no part. *)
Theorem slowHandler_fixed_iterations : forall r fresh rw w,
  let served r := slowHandler_timed MatchString r fresh rw (mkTimed w []) in
  let one_call := CallCheckEmail
                  :: repeat (RegexpMatch emailRegexp slowEmailSample) 5000 in
  fst (served r) = fst (slowHandler MatchString r fresh rw w)
  /\ now_world (snd (served r)) = snd (slowHandler MatchString r fresh rw w)
  /\ filter is_cpu_step (timeline (snd (served r))) = List.concat (repeat one_call 50)
  /\ timeline (snd (checkEmail_timed MatchString (mkTimed w []))) = one_call
  /\ now_world (snd (checkEmail_timed MatchString (mkTimed w [])))
     = snd (checkEmail MatchString w)
  /\ regexp_calls (snd (slowHandler MatchString r fresh rw w))
     = (regexp_calls w + 50 * 5000)%N
  /\ regexp_calls (snd (checkEmail MatchString w)) = (regexp_calls w + 5000)%N
  /\ forall r',
       filter is_cpu_step (timeline (snd (served r')))
       = filter is_cpu_step (timeline (snd (served r)))
       /\ regexp_calls (snd (slowHandler MatchString r' fresh rw w))
          = regexp_calls (snd (slowHandler MatchString r fresh rw w)).
Proof.
  intros r fresh rw w served one_call. subst served one_call. cbv beta.
  split; [now rewrite slowHandler_timed_spec|].
  split; [now rewrite slowHandler_timed_spec|].
  split; [exact (slowHandler_timed_cpu_steps r fresh rw w)|].
  split; [now rewrite checkEmail_timed_spec|].
  split; [now rewrite checkEmail_timed_spec|].
  split; [rewrite slowHandler_spec; reflexivity|].
  split; [rewrite checkEmail_spec; reflexivity|].
  intros r'. split.
  - now rewrite !slowHandler_timed_cpu_steps.
  - rewrite !slowHandler_spec. reflexivity.
Qed.

End Workload.

(** ** Properties of the formatting helpers *)

Section Formatting.

Lemma append_assoc : forall a b c : string, (a ++ b) ++ c = a ++ b ++ c.
Proof.
  induction a as [|ch a IH]; intros b c; cbn [append].
  - reflexivity.
  - now rewrite IH.
Qed.

Lemma EncodeToString_hex : forall src,
  Go.all_chars Go.is_hex_digit (Go.EncodeToString src) = true.
Proof.
  induction src as [|b src IH]; [reflexivity|].
  cbn [Go.EncodeToString Go.all_chars]. rewrite IH.
  destruct b; reflexivity.
Qed.

Lemma EncodeToString_length : forall src,
  String.length (Go.EncodeToString src) = (2 * List.length src)%nat.
Proof.
  induction src as [|b src IH]; [reflexivity|].
  cbn [Go.EncodeToString String.length List.length]. rewrite IH. lia.
Qed.

Lemma string_of_uint_digits : forall d,
  Go.all_chars is_digit (NilEmpty.string_of_uint d) = true.
Proof.
  induction d as [|d IH|d IH|d IH|d IH|d IH|d IH|d IH|d IH|d IH|d IH];
    cbn [NilEmpty.string_of_uint Go.all_chars]; try rewrite IH; reflexivity.
Qed.

Lemma string_of_pos_literal : forall p,
  let s := NilZero.string_of_uint (Pos.to_uint p) in
  negb (String.eqb s "") && Go.all_chars is_digit s = true
  /\ exists c rest, s = String c rest /\ is_digit c = true.
Proof.
  intros p s. subst s.
  pose proof (DecimalPos.Unsigned.to_uint_nonnil p) as Hnil.
  pose proof (string_of_uint_digits (Pos.to_uint p)) as Hdig.
  unfold NilZero.string_of_uint.
  destruct (Pos.to_uint p) as [|d|d|d|d|d|d|d|d|d|d]; [congruence| ..];
    (split; [exact Hdig | eexists _, _; split; reflexivity]).
Qed.

(** [%d] prints an integer literal. *)
Lemma fmt_d_int_literal : forall z, is_int_literal (Go.fmt_d z) = true.
Proof.
  intros [|p|p]; unfold Go.fmt_d; cbn [Z.to_int NilZero.string_of_int].
  - reflexivity.
  - destruct (string_of_pos_literal p) as [H (c & rest & Hs & Hc)].
    cbv zeta in *. rewrite Hs in *. unfold is_int_literal.
    destruct (Ascii.eqb_spec c "-") as [->|Hne]; [discriminate Hc|].
    destruct c as [[|] [|] [|] [|] [|] [|] [|] [|]]; try exact H; congruence.
  - destruct (string_of_pos_literal p) as [H _]. exact H.
Qed.

Lemma append_empty_r : forall a : string, a ++ "" = a.
Proof.
  induction a as [|ch a IH]; cbn [append]; [reflexivity|now rewrite IH].
Qed.

(** The two [Sprintf] calls of the generator produce the bodies the
    specification words. *)
Lemma Sprintf_ok_body : forall route ms tid sid,
  Go.Sprintf "[OK] route=%s method=GET status=200 duration_ms=%d trace_id=%s span_id=%s"
    [Go.AString route; Go.AInt ms; Go.AString tid; Go.AString sid]
  = spec_ok_body route ms tid sid.
Proof.
  intros. unfold spec_ok_body. cbn -[Go.fmt_d]. now rewrite append_empty_r.
Qed.

Lemma Sprintf_error_body : forall route err tid sid,
  Go.Sprintf "[ERROR] route=%s method=GET err=%v trace_id=%s span_id=%s"
    [Go.AString route; Go.AError err; Go.AString tid; Go.AString sid]
  = spec_error_body route err tid sid.
Proof.
  intros. unfold spec_error_body. cbn. now rewrite append_empty_r.
Qed.

End Formatting.

(** ** Properties of the traffic generator *)

Section Generator.

Variable MatchString : string -> string -> bool.

Lemma World_ext : forall w1 w2,
  allocHolder w1 = allocHolder w2 ->
  heap_next w1 = heap_next w2 ->
  history w1 = history w2 ->
  regexp_calls w1 = regexp_calls w2 ->
  w1 = w2.
Proof. intros [a1 n1 h1 c1] [a2 n2 h2 c2]; cbn; congruence. Qed.

(** Runs one pass symbolically once the outcome [Hget] of its round trip
    is known; [Hbody] is the lemma for the [Sprintf] call of the branch. *)
Ltac run_pass Hget Hbody :=
  unfold generator_iteration, tracer_Start;
  rewrite (checkEmail_spec MatchString), Hget, Hbody;
  apply World_ext;
  cbn [allocHolder heap_next history regexp_calls record_event span_End cpu_spent snd];
  [reflexivity | reflexivity | rewrite <- !app_assoc; reflexivity | reflexivity].

(** One pass whose round trip fails. *)
Lemma generator_iteration_failed : forall e w err,
  it_get e = inl err ->
  let span := it_fresh e in
  let r := {| Timestamp := it_now e;
              RecSeverity := SeverityError;
              SeverityText := "ERROR";
              Body := spec_error_body routeSlow err
                        (TraceID_String span) (SpanID_String span);
              Attributes := [("route", StringValue routeSlow);
                             ("error", StringValue err);
                             ("trace_id", StringValue (TraceID_String span));
                             ("span_id", StringValue (SpanID_String span))] |} in
  generator_iteration MatchString e w
  = {| allocHolder := allocHolder w;
       heap_next := heap_next w;
       history := history w
         ++ [SpanStart "traffic_generator_request" span None;
             SpanSetAttributes span [("job", jobName); ("service_name", serviceName)];
             HttpGet "http://localhost:8080/slow";
             LogEmit r;
             SpanRecordError span err;
             SpanEnd span;
             Sleep (Go.Millisecond * (100 + it_Intn500 e))];
       regexp_calls := regexp_calls w + 5000 |}.
Proof.
  intros e w err Hget span r. run_pass Hget Sprintf_error_body.
Qed.

(** One pass whose round trip returns a response. *)
Lemma generator_iteration_succeeded : forall e w resp,
  it_get e = inr resp ->
  let span := it_fresh e in
  let duration := Go.Seconds (it_elapsed e) in
  let ms := Go.int_of_float64 (PrimFloat.mul duration 1000%float) in
  let r := {| Timestamp := it_now e;
              RecSeverity := SeverityInfo;
              SeverityText := "INFO";
              Body := spec_ok_body routeSlow ms
                        (TraceID_String span) (SpanID_String span);
              Attributes := [("route", StringValue routeSlow);
                             ("duration_ms", IntValue ms);
                             ("method", StringValue "GET");
                             ("trace_id", StringValue (TraceID_String span));
                             ("span_id", StringValue (SpanID_String span))] |} in
  generator_iteration MatchString e w
  = {| allocHolder := allocHolder w;
       heap_next := heap_next w;
       history := history w
         ++ [SpanStart "traffic_generator_request" span None;
             SpanSetAttributes span [("job", jobName); ("service_name", serviceName)];
             HttpGet "http://localhost:8080/slow";
             CounterAdd requestCount 1
               [("method", "GET"); ("status", "200"); ("route", routeSlow)];
             HistogramRecord histogram duration [("route", routeSlow)];
             BodyClose;
             LogEmit r;
             SpanEnd span;
             Sleep (Go.Millisecond * (100 + it_Intn500 e))];
       regexp_calls := regexp_calls w + 5000 |}.
Proof.
  intros e w resp Hget span duration ms r. run_pass Hget Sprintf_ok_body.
Qed.

(** The events of a pass do not depend on what happened before it. *)
Lemma generator_iteration_history : forall e w,
  history (generator_iteration MatchString e w) = (history w ++ history (generator_iteration MatchString e initial_world))%list.
Proof.
  intros e w. destruct (it_get e) as [err|resp] eqn:Hget.
  - now rewrite !(generator_iteration_failed e _ err Hget).
  - now rewrite !(generator_iteration_succeeded e _ resp Hget).
Qed.

Lemma count_events_app : forall p h1 h2,
  count_events p (h1 ++ h2) = (count_events p h1 + count_events p h2)%nat.
Proof. intros. unfold count_events. now rewrite filter_app, length_app. Qed.

Lemma emitted_logs_app : forall h1 h2,
  emitted_logs (h1 ++ h2) = (emitted_logs h1 ++ emitted_logs h2)%list.
Proof. intros. unfold emitted_logs. apply flat_map_app. Qed.

Lemma traffic_loop_app : forall envs1 envs2 w,
  traffic_loop MatchString (envs1 ++ envs2) w
  = traffic_loop MatchString envs2 (traffic_loop MatchString envs1 w).
Proof. intros. unfold traffic_loop. apply fold_left_app. Qed.

(** Every pass opens one span and closes one span, whatever the outcome
    of its round trip. *)
Lemma generator_iteration_spans : forall e w,
  count_events is_span_start (history (generator_iteration MatchString e w))
  = S (count_events is_span_start (history w))
  /\ count_events is_span_end (history (generator_iteration MatchString e w))
     = S (count_events is_span_end (history w)).
Proof.
  intros e w. rewrite generator_iteration_history, !count_events_app.
  destruct (it_get e) as [err|resp] eqn:Hget.
  - rewrite (generator_iteration_failed e _ err Hget). cbn. lia.
  - rewrite (generator_iteration_succeeded e _ resp Hget). cbn. lia.
Qed.

Lemma traffic_loop_spans : forall envs w,
  count_events is_span_start (history (traffic_loop MatchString envs w))
  = (count_events is_span_start (history w) + List.length envs)%nat
  /\ count_events is_span_end (history (traffic_loop MatchString envs w))
     = (count_events is_span_end (history w) + List.length envs)%nat.
Proof.
  induction envs as [|e envs IH] using rev_ind; intros w.
  - cbn. lia.
  - rewrite traffic_loop_app, length_app. cbn [List.length].
    unfold traffic_loop at 1 3. cbn [fold_left].
    destruct (generator_iteration_spans e (traffic_loop MatchString envs w)) as [-> ->].
    destruct (IH w) as [-> ->]. lia.
Qed.

Lemma generator_iteration_logs : forall e w,
  exists r,
    emitted_logs (history (generator_iteration MatchString e w))
    = (emitted_logs (history w) ++ [r])%list
    /\ Body r = spec_body_of_pass e
    /\ RecSeverity r = match it_get e with
                       | inl _ => SeverityError
                       | inr _ => SeverityInfo
                       end.
Proof.
  intros e w. unfold spec_body_of_pass.
  destruct (it_get e) as [err|resp] eqn:Hget.
  - rewrite (generator_iteration_failed e w err Hget). cbn [history].
    rewrite emitted_logs_app. cbn. eexists. repeat split.
  - rewrite (generator_iteration_succeeded e w resp Hget). cbn [history].
    rewrite emitted_logs_app. cbn. eexists. repeat split.
Qed.

Lemma traffic_loop_logs : forall envs w r,
  In r (emitted_logs (history (traffic_loop MatchString envs w))) ->
  In r (emitted_logs (history w))
  \/ exists e, In e envs /\ Body r = spec_body_of_pass e.
Proof.
  induction envs as [|e envs IH] using rev_ind; intros w r Hin.
  - now left.
  - rewrite traffic_loop_app in Hin. unfold traffic_loop at 1 in Hin.
    cbn [fold_left] in Hin.
    destruct (generator_iteration_logs e (traffic_loop MatchString envs w))
      as (r' & Hlogs & Hbody & _).
    rewrite Hlogs in Hin. apply in_app_or in Hin. destruct Hin as [Hin|Hin].
    + destruct (IH w r Hin) as [Hold|(e' & He' & Hb)]; [now left|].
      right. exists e'. split; [apply in_or_app; now left|exact Hb].
    + destruct Hin as [<-|[]]. right. exists e.
      split; [apply in_or_app; right; now left|exact Hbody].
Qed.

Lemma spec_ok_body_contains : forall route ms tid sid,
  Go.Contains (spec_ok_body route ms tid sid) ("route=" ++ route)
  /\ Go.Contains (spec_ok_body route ms tid sid) "status=200"
  /\ Go.Contains (spec_ok_body route ms tid sid) tid.
Proof.
  intros route ms tid sid. unfold spec_ok_body. split; [|split].
  - exists "[OK] ", (" method=GET status=200 duration_ms="
                      ++ Go.fmt_d ms ++ " trace_id=" ++ tid ++ " span_id=" ++ sid).
    now rewrite <- !append_assoc.
  - exists ("[OK] route=" ++ route ++ " method=GET "),
           (" duration_ms=" ++ Go.fmt_d ms ++ " trace_id=" ++ tid ++ " span_id=" ++ sid).
    rewrite !append_assoc. reflexivity.
  - exists ("[OK] route=" ++ route ++ " method=GET status=200 duration_ms="
              ++ Go.fmt_d ms ++ " trace_id="),
           (" span_id=" ++ sid).
    rewrite !append_assoc. reflexivity.
Qed.

Lemma spec_error_body_contains : forall route err tid sid,
  Go.Contains (spec_error_body route err tid sid) ("route=" ++ route)
  /\ Go.Contains (spec_error_body route err tid sid) ("err=" ++ err)
  /\ Go.Contains (spec_error_body route err tid sid) ("trace_id=" ++ tid)
  /\ Go.Contains (spec_error_body route err tid sid) ("span_id=" ++ sid).
Proof.
  intros route err tid sid. unfold spec_error_body. repeat split.
  - exists "[ERROR] ", (" method=GET err=" ++ err ++ " trace_id=" ++ tid
                         ++ " span_id=" ++ sid).
    now rewrite <- !append_assoc.
  - exists ("[ERROR] route=" ++ route ++ " method=GET "),
           (" trace_id=" ++ tid ++ " span_id=" ++ sid).
    rewrite !append_assoc. reflexivity.
  - exists ("[ERROR] route=" ++ route ++ " method=GET err=" ++ err ++ " "),
           (" span_id=" ++ sid).
    rewrite !append_assoc. reflexivity.
  - exists ("[ERROR] route=" ++ route ++ " method=GET err=" ++ err
              ++ " trace_id=" ++ tid ++ " "), "".
    rewrite !append_assoc, append_empty_r. reflexivity.
Qed.

(** C5. A log record found in the history after the generator ran over
    any inputs, from any world, was either there before or is the record
    of one of the passes, and then its body is, character for character,
    [[ERROR] route=/slow method=GET err=<text> trace_id=<hex> span_id=<hex>]
    when the round trip of that pass failed and
    [[OK] route=/slow method=GET status=200 duration_ms=<int> trace_id=<hex> span_id=<hex>]
    when it did not, with the identifiers of the span of the pass in
    hexadecimal and the duration as an integer literal; a body of the
    second kind contains [route=/slow], [status=200] and the trace
    identifier. *)
Theorem generator_log_body_format : forall envs w r,
  In r (emitted_logs (history (startTrafficGenerator MatchString envs w))) ->
  In r (emitted_logs (history w))
  \/ exists e,
       In e envs
       /\ let tid := TraceID_String (it_fresh e) in
          let sid := SpanID_String (it_fresh e) in
          let ms := Go.int_of_float64
                      (PrimFloat.mul (Go.Seconds (it_elapsed e)) 1000%float) in
          Go.all_chars Go.is_hex_digit tid = true
          /\ Go.all_chars Go.is_hex_digit sid = true
          /\ is_int_literal (Go.fmt_d ms) = true
          /\ match it_get e with
             | inl err =>
                 Body r = "[ERROR] route=" ++ routeSlow ++ " method=GET err=" ++ err
                            ++ " trace_id=" ++ tid ++ " span_id=" ++ sid
             | inr _ =>
                 Body r = "[OK] route=" ++ routeSlow
                            ++ " method=GET status=200 duration_ms=" ++ Go.fmt_d ms
                            ++ " trace_id=" ++ tid ++ " span_id=" ++ sid
                 /\ Go.Contains (Body r) ("route=" ++ routeSlow)
                 /\ Go.Contains (Body r) "status=200"
                 /\ Go.Contains (Body r) tid
             end.
Proof.
  intros envs w r Hin. unfold startTrafficGenerator in Hin.
  apply traffic_loop_logs in Hin. destruct Hin as [Hold|(e & He & Hbody)].
  - left. unfold record_event in Hold. cbn [history] in Hold.
    rewrite emitted_logs_app in Hold. cbn in Hold.
    now rewrite app_nil_r in Hold.
  - right. exists e. split; [exact He|]. cbv zeta.
    split; [apply EncodeToString_hex|].
    split; [apply EncodeToString_hex|].
    split; [apply fmt_d_int_literal|].
    unfold spec_body_of_pass in Hbody.
    destruct (it_get e) as [err|resp]; [exact Hbody|].
    split; [exact Hbody|]. rewrite Hbody. apply spec_ok_body_contains.
Qed.

(** C6. A pass whose round trip fails, after any earlier passes: it
    emits one record of severity error whose body holds the route, the
    error text and both identifiers, records the error on the span, ends
    the span, sleeps, and the loop goes on with the remaining inputs; over
    the whole run one span was started per input, the inputs after the
    failed one included. *)
Theorem generator_survives_failed_call : forall pre e post w err,
  it_get e = inl err ->
  let w1 := traffic_loop MatchString pre w in
  let w2 := generator_iteration MatchString e w1 in
  let span := it_fresh e in
  exists r,
    history w2
    = (history w1
         ++ [SpanStart "traffic_generator_request" span None;
             SpanSetAttributes span [("job", jobName); ("service_name", serviceName)];
             HttpGet "http://localhost:8080/slow";
             LogEmit r;
             SpanRecordError span err;
             SpanEnd span;
             Sleep (Go.Millisecond * (100 + it_Intn500 e))])%list
    /\ RecSeverity r = SeverityError
    /\ Go.Contains (Body r) ("route=" ++ routeSlow)
    /\ Go.Contains (Body r) ("err=" ++ err)
    /\ Go.Contains (Body r) ("trace_id=" ++ TraceID_String span)
    /\ Go.Contains (Body r) ("span_id=" ++ SpanID_String span)
    /\ traffic_loop MatchString (pre ++ e :: post) w
       = traffic_loop MatchString post w2
    /\ count_events is_span_start
         (history (traffic_loop MatchString (pre ++ e :: post) w))
       = (count_events is_span_start (history w2) + List.length post)%nat.
Proof.
  intros pre e post w err Hget w1 w2 span.
  assert (Hloop : traffic_loop MatchString (pre ++ e :: post) w
                  = traffic_loop MatchString post w2).
  { rewrite traffic_loop_app. reflexivity. }
  subst w2. rewrite Hloop.
  rewrite (generator_iteration_failed e w1 err Hget). fold span.
  eexists. split; [reflexivity|]. cbn [RecSeverity Body].
  split; [reflexivity|].
  destruct (spec_error_body_contains routeSlow err (TraceID_String span)
              (SpanID_String span)) as (H1 & H2 & H3 & H4).
  repeat (split; [assumption|]).
  split; [reflexivity|].
  apply traffic_loop_spans.
Qed.

(** C9, as the code has it.  A pass whose round trip returns a response
    adds to the history exactly one increment of the request counter,
    tagged with method, status and route, and exactly one observation of
    the duration, tagged with the route; a pass whose round trip fails
    adds neither.  Both kinds of pass end their span. *)
Theorem generator_metrics_on_success : forall e w,
  let h := history (generator_iteration MatchString e w) in
  let emitted := match it_get e with inl _ => 0%nat | inr _ => 1%nat end in
  count_events is_counter_add h
  = (count_events is_counter_add (history w) + emitted)%nat
  /\ count_events is_histogram_record h
     = (count_events is_histogram_record (history w) + emitted)%nat
  /\ count_events is_span_end h = S (count_events is_span_end (history w))
  /\ match it_get e with
     | inl _ => True
     | inr _ =>
         In (CounterAdd requestCount 1
               [("method", "GET"); ("status", "200"); ("route", routeSlow)]) h
         /\ In (HistogramRecord histogram (Go.Seconds (it_elapsed e))
                  [("route", routeSlow)]) h
     end.
Proof.
  intros e w h emitted. subst h emitted.
  split; [|split; [|split]].
  - rewrite generator_iteration_history, count_events_app.
    destruct (it_get e) as [err|resp] eqn:Hget.
    + now rewrite (generator_iteration_failed e _ err Hget).
    + now rewrite (generator_iteration_succeeded e _ resp Hget).
  - rewrite generator_iteration_history, count_events_app.
    destruct (it_get e) as [err|resp] eqn:Hget.
    + now rewrite (generator_iteration_failed e _ err Hget).
    + now rewrite (generator_iteration_succeeded e _ resp Hget).
  - apply generator_iteration_spans.
  - destruct (it_get e) as [err|resp] eqn:Hget; [exact I|].
    rewrite (generator_iteration_succeeded e _ resp Hget). cbn [history].
    split; apply in_or_app; right; cbn; tauto.
Qed.

End Generator.

(** ** Properties of the handlers *)

Section Handlers.

Variable MatchString : string -> string -> bool.

Lemma Qltb_lt : forall x y, Qltb x y = true <-> (x < y)%Q.
Proof.
  intros x y. unfold Qltb. rewrite Qlt_alt.
  destruct (x ?= y)%Q; split; congruence.
Qed.

Lemma not_Contains_empty : forall c s, ~ Go.Contains "" (String c s).
Proof.
  intros c s (before & after & H).
  destruct before; cbn in H; discriminate H.
Qed.

(** C7. With draws as [math/rand] gives them, the handler of [/hello]
    sleeps between 0 and 50 ms, then, on a fresh response, either writes
    status 500 and nothing else, which it does exactly when the float
    drawn is below the threshold (a threshold within [10^-8] above 0.05,
    so 5% of the unit interval the draw comes from), or writes the body
    [Hello World] under status 200.  Either way the draws are used once
    and one response action follows the sleep. *)
Theorem helloHandler_behaviour : forall r d w,
  valid_draws d ->
  let fails := Qltb (draw_Float32 d) failure_threshold in
  let res := helloHandler r d newResponseWriter w in
  let nap := Go.Millisecond * draw_Intn50 d in
  0 <= nap <= 50 * Go.Millisecond
  /\ (fails = true <-> (draw_Float32 d < failure_threshold)%Q)
  /\ (5 # 100 <= failure_threshold)%Q
  /\ (failure_threshold < (5 # 100) + (1 # 100000000))%Q
  /\ (if fails
      then status (fst res) = StatusInternalServerError
           /\ history (snd res)
              = (history w ++ [Sleep nap; ResponseWriteHeader 500])%list
      else status (fst res) = StatusOK
           /\ body (fst res) = "Hello World"
           /\ history (snd res)
              = (history w ++ [Sleep nap; ResponseWrite "Hello World"])%list).
Proof.
  intros r d w (Hnap & _ & _) fails res nap. subst nap res.
  split; [unfold Go.Millisecond; lia|].
  split; [apply Qltb_lt|].
  split; [unfold Qle; cbn; lia|].
  split; [unfold Qlt; cbn; lia|].
  unfold helloHandler. fold fails. destruct fails.
  - unfold rw_WriteHeader, record_event. cbn. rewrite <- app_assoc. now split.
  - unfold rw_Write, record_event. cbn. rewrite <- app_assoc. now repeat split.
Qed.

(** C10. When the float drawn is below the threshold the handler of
    [/hello], given a fresh response, writes the header with status 500
    right after the sleep and returns: no body is written, so the body of
    the response is empty and does not contain [Hello World]. *)
Theorem helloHandler_failure_has_empty_body : forall r d w,
  (draw_Float32 d < failure_threshold)%Q ->
  let res := helloHandler r d newResponseWriter w in
  status (fst res) = StatusInternalServerError
  /\ body (fst res) = ""
  /\ ~ Go.Contains (body (fst res)) "Hello World"
  /\ history (snd res)
     = (history w ++ [Sleep (Go.Millisecond * draw_Intn50 d);
                      ResponseWriteHeader StatusInternalServerError])%list
  /\ count_events is_response_write (history (snd res))
     = count_events is_response_write (history w).
Proof.
  intros r d w Hlt res. subst res. unfold helloHandler.
  apply Qltb_lt in Hlt. rewrite Hlt.
  unfold rw_WriteHeader, record_event. cbn [fst snd history newResponseWriter
    wroteHeader status body].
  split; [reflexivity|]. split; [reflexivity|].
  split; [apply not_Contains_empty|].
  rewrite <- app_assoc. split; [reflexivity|].
  unfold count_events. rewrite filter_app, length_app. cbn. lia.
Qed.

(** C8, as the code has it.  Serving one request to [/slow] on a fresh
    response gives the body [Slow endpoint finished] under status 200.
    On the time line of the request the first step is the start of the
    one span named [slow_business_logic], child of the span of the
    request; then comes the whole workload, 50 calls of [checkEmail] of
    5000 evaluations each; then the write of the body; and last the end
    of that span, which is deferred to the return of the handler.  The
    history gains the three effects in that order and the world counts
    the 250000 evaluations. *)
Theorem slowHandler_response_and_scope : forall r fresh w,
  let res := slowHandler MatchString r fresh newResponseWriter w in
  let timed_res := slowHandler_timed MatchString r fresh newResponseWriter
                     (mkTimed w []) in
  let span := {| TraceID := match req_span r with
                            | Some parent => TraceID parent
                            | None => TraceID fresh
                            end;
                 SpanID := SpanID fresh |} in
  body (fst res) = "Slow endpoint finished"
  /\ status (fst res) = StatusOK
  /\ history (snd res)
     = (history w ++ [SpanStart "slow_business_logic" span (req_span r);
                      ResponseWrite "Slow endpoint finished";
                      SpanEnd span])%list
  /\ regexp_calls (snd res) = (regexp_calls w + 250000)%N
  /\ fst timed_res = fst res
  /\ now_world (snd timed_res) = snd res
  /\ timeline (snd timed_res)
     = (Effect (SpanStart "slow_business_logic" span (req_span r))
        :: List.concat
             (repeat (CallCheckEmail
                        :: repeat (RegexpMatch emailRegexp slowEmailSample) 5000) 50)
        ++ [Effect (ResponseWrite "Slow endpoint finished");
            Effect (SpanEnd span)])%list.
Proof.
  intros r fresh w res timed_res span. subst res timed_res.
  rewrite slowHandler_timed_spec.
  cbn [fst snd now_world timeline app].
  assert (Hspan : fst (tracer_Start (req_span r) "slow_business_logic" fresh w) = span).
  { unfold tracer_Start. cbn [fst]. subst span.
    destruct (req_span r), fresh; reflexivity. }
  rewrite Hspan. rewrite slowHandler_spec. rewrite Hspan.
  cbn [fst snd body status history regexp_calls newResponseWriter wroteHeader].
  repeat split.
Qed.

End Handlers.

(** ** The theorems at the sample inputs *)

Lemma retention_buffer_fifo_witness :
  (S maxRetained <= List.length sample_alloc_calls)%nat
  /\ (25 <= List.length sample_alloc_calls)%nat
  /\ List.length
       (allocHolder (serve_alloc (firstn (S maxRetained) sample_alloc_calls) initial_world))
     = maxRetained
  /\ map blk_addr (allocHolder (serve_alloc (firstn 25 sample_alloc_calls) initial_world))
     = seq 5 20.
Proof.
  assert (H21 : (S maxRetained <= List.length sample_alloc_calls)%nat)
    by (vm_compute; repeat constructor).
  assert (H25 : (25 <= List.length sample_alloc_calls)%nat)
    by (vm_compute; repeat constructor).
  destruct (retention_buffer_fifo sample_alloc_calls) as (_ & Hfull & Hlater).
  destruct (Hfull H21) as (Hlen & _).
  destruct (Hlater H25) as (_ & _ & Haddr & _).
  repeat split; assumption.
Defined.

Lemma generator_log_body_format_witness :
  In sample_ok_record
     (emitted_logs
        (history (startTrafficGenerator sample_matcher [sample_ok_pass] initial_world)))
  /\ Go.Contains (Body sample_ok_record) "status=200".
Proof.
  assert (Hin : In sample_ok_record
                  (emitted_logs
                     (history (startTrafficGenerator sample_matcher [sample_ok_pass]
                                 initial_world))))
    by (vm_compute; left; reflexivity).
  split; [exact Hin|].
  destruct (generator_log_body_format sample_matcher [sample_ok_pass] initial_world
              sample_ok_record Hin) as [Hold|(e & He & H)].
  - destruct Hold.
  - destruct He as [<-|[]]. cbv zeta in H.
    destruct H as (_ & _ & _ & H). cbn [it_get sample_ok_pass] in H.
    destruct H as (_ & _ & H & _). exact H.
Defined.

Lemma generator_survives_failed_call_witness :
  it_get sample_failed_pass = inl "connection refused"
  /\ traffic_loop sample_matcher ([sample_ok_pass] ++ sample_failed_pass :: [sample_ok_pass])
       initial_world
     = traffic_loop sample_matcher [sample_ok_pass]
         (generator_iteration sample_matcher sample_failed_pass
            (traffic_loop sample_matcher [sample_ok_pass] initial_world)).
Proof.
  split; [reflexivity|].
  destruct (generator_survives_failed_call sample_matcher [sample_ok_pass]
              sample_failed_pass [sample_ok_pass] initial_world "connection refused"
              eq_refl) as (r & _ & _ & _ & _ & _ & _ & H & _).
  exact H.
Defined.

Lemma helloHandler_behaviour_witness :
  valid_draws sample_draws_pass
  /\ body (fst (helloHandler sample_request sample_draws_pass newResponseWriter
                  initial_world)) = "Hello World".
Proof.
  assert (Hv : valid_draws sample_draws_pass).
  { unfold valid_draws, sample_draws_pass. cbn.
    split; [split; [discriminate|reflexivity]|].
    split; [discriminate|reflexivity]. }
  split; [exact Hv|].
  destruct (helloHandler_behaviour sample_request sample_draws_pass initial_world Hv)
    as (_ & _ & _ & _ & H).
  cbn in H. destruct H as (_ & H & _). exact H.
Defined.

Lemma helloHandler_failure_has_empty_body_witness :
  (draw_Float32 sample_draws_fail < failure_threshold)%Q
  /\ body (fst (helloHandler sample_request sample_draws_fail newResponseWriter
                  initial_world)) = "".
Proof.
  assert (Hlt : (draw_Float32 sample_draws_fail < failure_threshold)%Q)
    by reflexivity.
  split; [exact Hlt|].
  destruct (helloHandler_failure_has_empty_body sample_request sample_draws_fail
              initial_world Hlt) as (_ & H & _).
  exact H.
Defined.

(** ** Where the code departs from the wording of the specification *)

(** C4, as the specification words it, fails.  A request to [/slow]
    costs 250000 evaluations of the expression, not 5000, and a request
    that asks for 10 iterations in its query costs as many. *)
Lemma slowHandler_iterations_counterexample :
  regexp_calls
    (snd (slowHandler sample_matcher sample_request sample_child newResponseWriter
            initial_world)) = 250000%N
  /\ regexp_calls
       (snd (slowHandler sample_matcher sample_request_with_query sample_child
               newResponseWriter initial_world)) = 250000%N
  /\ RawQuery sample_request_with_query = "iterations=10"
  /\ 250000%N <> 5000%N
  /\ 250000%N <> 10%N.
Proof.
  repeat split; try discriminate; vm_compute; reflexivity.
Qed.

(** C8, as the specification words it, fails.  In the history of one
    request to [/slow] the write of the body comes second and the end of
    the span third: the span is not closed before the response is
    written. *)
Lemma slowHandler_span_order_counterexample :
  let h := history
             (snd (slowHandler sample_matcher sample_request sample_child
                     newResponseWriter initial_world)) in
  first_index is_response_write h = Some 1%nat
  /\ first_index is_span_end h = Some 2%nat
  /\ ~ (exists before after sc data,
          h = (before ++ SpanEnd sc :: after)%list /\ In (ResponseWrite data) after).
Proof.
  cbv zeta. split; [vm_compute; reflexivity|]. split; [vm_compute; reflexivity|].
  intros (before & after & sc & data & Heq & Hin).
  rewrite (slowHandler_spec sample_matcher) in Heq. cbn in Heq.
  destruct before as [|e1 [|e2 [|e3 before]]]; cbn in Heq.
  - discriminate Heq.
  - discriminate Heq.
  - injection Heq as _ _ _ <-. destruct Hin.
  - injection Heq as _ _ _ Heq. destruct before; discriminate Heq.
Qed.

(** C9, as the specification words it, fails.  A pass whose round trip
    fails runs to its end, the span is closed, and neither a counter
    increment nor a duration observation is in its history. *)
Lemma generator_metrics_counterexample :
  let h := history (generator_iteration sample_matcher sample_failed_pass initial_world) in
  count_events is_span_end h = 1%nat
  /\ count_events is_counter_add h = 0%nat
  /\ count_events is_histogram_record h = 0%nat.
Proof.
  cbv zeta. repeat split; vm_compute; reflexivity.
Qed.

(** ** Further properties of the handlers and of the generator *)

Section Traffic.

Variable MatchString : string -> string -> bool.

Lemma allocHandler_spec : forall r fresh rw w,
  let span := fst (tracer_Start (req_span r) "alloc_business_logic" fresh w) in
  fst (allocHandler r fresh rw w)
  = {| wroteHeader := true;
       status := if wroteHeader rw then status rw else StatusOK;
       body := body rw ++ "Alloc endpoint finished" |}
  /\ history (snd (allocHandler r fresh rw w))
     = (history w ++ [SpanStart "alloc_business_logic" span (req_span r);
                      ResponseWrite "Alloc endpoint finished";
                      SpanEnd span])%list
  /\ regexp_calls (snd (allocHandler r fresh rw w)) = regexp_calls w.
Proof.
  intros r fresh rw w span. subst span.
  unfold allocHandler, tracer_Start, allocateMemoryBurst, allocateMemoryBurst_sized,
    rw_Write, span_End, record_event.
  cbn [fst snd history regexp_calls]. rewrite <- !app_assoc. repeat split.
Qed.

(** X1.  The handler of [/alloc] on a fresh response: the body and status it
    answers with, the one span it opens under the span of the request and
    closes after the write, and the one array it takes from the
    allocator; no regular expression is evaluated. *)
Theorem allocHandler_response_and_scope : forall r fresh w,
  let res := allocHandler r fresh newResponseWriter w in
  let span := {| TraceID := match req_span r with
                            | Some parent => TraceID parent
                            | None => TraceID fresh
                            end;
                 SpanID := SpanID fresh |} in
  body (fst res) = "Alloc endpoint finished"
  /\ status (fst res) = StatusOK
  /\ history (snd res)
     = (history w ++ [SpanStart "alloc_business_logic" span (req_span r);
                      ResponseWrite "Alloc endpoint finished";
                      SpanEnd span])%list
  /\ heap_next (snd res) = S (heap_next w)
  /\ regexp_calls (snd res) = regexp_calls w.
Proof.
  intros r fresh w res span. subst res span.
  destruct (allocHandler_spec r fresh newResponseWriter w) as (Hrw & Hh & Hc).
  destruct (allocHolder_allocHandler r fresh newResponseWriter w) as (_ & Hn).
  rewrite Hrw, Hh, Hc, Hn. cbn [body status newResponseWriter wroteHeader].
  repeat split. unfold tracer_Start. cbn [fst].
  destruct (req_span r), fresh; reflexivity.
Qed.


Lemma generator_iteration_frame : forall e w,
  allocHolder (generator_iteration MatchString e w) = allocHolder w
  /\ heap_next (generator_iteration MatchString e w) = heap_next w
  /\ regexp_calls (generator_iteration MatchString e w) = (regexp_calls w + 5000)%N.
Proof.
  intros e w. destruct (it_get e) as [err|resp] eqn:Hget.
  - rewrite (generator_iteration_failed MatchString e w err Hget). now cbn.
  - rewrite (generator_iteration_succeeded MatchString e w resp Hget). now cbn.
Qed.

Lemma perform_frame : forall a w,
  match a with
  | Alloc r fresh =>
      allocHolder (perform MatchString a w) = allocHolder (allocateMemoryBurst w)
      /\ heap_next (perform MatchString a w) = S (heap_next w)
  | _ =>
      allocHolder (perform MatchString a w) = allocHolder w
      /\ heap_next (perform MatchString a w) = heap_next w
  end.
Proof.
  intros [r d|r fresh|r fresh|e] w; cbn [perform].
  - unfold helloHandler, rw_WriteHeader, rw_Write, record_event.
    destruct (Qltb _ _); now cbn.
  - rewrite slowHandler_spec. now cbn.
  - apply allocHolder_allocHandler.
  - destruct (generator_iteration_frame e w) as (H1 & H2 & _). now split.
Qed.

Lemma perform_cost : forall a w,
  regexp_calls (perform MatchString a w)
  = (regexp_calls w
     + match a with Slow _ _ => 250000 | Pass _ => 5000 | _ => 0 end)%N.
Proof.
  intros [r d|r fresh|r fresh|e] w; cbn [perform].
  - unfold helloHandler, rw_WriteHeader, rw_Write, record_event.
    destruct (Qltb _ _); cbn; lia.
  - rewrite slowHandler_spec. reflexivity.
  - destruct (allocHandler_spec r fresh newResponseWriter w) as (_ & _ & ->). lia.
  - apply generator_iteration_frame.
Qed.


Lemma allocateMemoryBurst_frame : forall w1 w2,
  allocHolder w1 = allocHolder w2 ->
  heap_next w1 = heap_next w2 ->
  allocHolder (allocateMemoryBurst w1) = allocHolder (allocateMemoryBurst w2).
Proof.
  intros w1 w2 Hh Hn. unfold allocateMemoryBurst, allocateMemoryBurst_sized.
  cbn [allocHolder]. now rewrite Hh, Hn.
Qed.

Lemma run_buffer : forall actions w1 w2,
  allocHolder w1 = allocHolder w2 ->
  heap_next w1 = heap_next w2 ->
  allocHolder (run MatchString actions w1)
  = allocHolder (serve_alloc (alloc_calls actions) w2)
  /\ heap_next (run MatchString actions w1)
     = heap_next (serve_alloc (alloc_calls actions) w2).
Proof.
  induction actions as [|a actions IH]; intros w1 w2 Hh Hn; [now split|].
  unfold run. cbn [fold_left]. fold (run MatchString actions (perform MatchString a w1)).
  pose proof (perform_frame a w1) as Hf.
  destruct a as [r d|r fresh|r fresh|e]; cbn [alloc_calls flat_map app];
    fold (alloc_calls actions).
  - destruct Hf as [Hf1 Hf2]. apply IH; congruence.
  - destruct Hf as [Hf1 Hf2]. apply IH; congruence.
  - destruct Hf as [Hf1 Hf2]. unfold serve_alloc. cbn [fold_left fst snd].
    fold (serve_alloc (alloc_calls actions)
            (snd (allocHandler r fresh newResponseWriter w2))).
    destruct (allocHolder_allocHandler r fresh newResponseWriter w2) as [Hg1 Hg2].
    apply IH.
    + rewrite Hf1, Hg1. now apply allocateMemoryBurst_frame.
    + rewrite Hf2, Hg2. now rewrite Hn.
  - destruct Hf as [Hf1 Hf2]. apply IH; congruence.
Qed.

(** X3.  Requests to the three routes and passes of the generator, in any
    interleaving: the retention buffer ends as if only the requests to
    [/alloc] had been served.  From the empty buffer it holds as many
    blocks as there were such requests, up to 20: the arrays of the latest
    of them, oldest first, no array twice. *)
Theorem run_buffer_depends_on_allocs_only : forall actions w,
  let k := List.length (alloc_calls actions) in
  allocHolder (run MatchString actions w)
  = allocHolder (serve_alloc (alloc_calls actions) w)
  /\ List.length (allocHolder (run MatchString actions initial_world))
     = Nat.min k maxRetained
  /\ map blk_addr (allocHolder (run MatchString actions initial_world))
     = seq (k - Nat.min k maxRetained) (Nat.min k maxRetained)
  /\ NoDup (map blk_addr (allocHolder (run MatchString actions initial_world))).
Proof.
  intros actions w k. subst k. split; [now apply run_buffer|].
  destruct (run_buffer actions initial_world initial_world eq_refl eq_refl) as [-> _].
  destruct (serve_alloc_addresses (alloc_calls actions)) as [_ Hmap].
  split; [apply serve_alloc_length|]. split; [exact Hmap|].
  rewrite Hmap. apply seq_NoDup.
Qed.

Lemma run_snoc : forall actions a w,
  run MatchString (actions ++ [a]) w
  = perform MatchString a (run MatchString actions w).
Proof. intros. unfold run. now rewrite fold_left_app. Qed.

(** X4.  The regular-expression evaluations of any mix of requests and passes:
    250000 for each request to [/slow], 5000 for each pass of the
    generator, none for [/hello] and [/alloc]. *)
Theorem run_regexp_cost : forall actions w,
  regexp_calls (run MatchString actions w)
  = (regexp_calls w
     + 250000 * N.of_nat (List.length (filter is_slow actions))
     + 5000 * N.of_nat (List.length (filter is_pass actions)))%N.
Proof.
  induction actions as [|a actions IH] using rev_ind; intros w.
  - cbn. lia.
  - rewrite run_snoc, perform_cost, IH, !filter_app, !length_app.
    destruct a; cbn [filter is_slow is_pass List.length]; lia.
Qed.


(** X6.  [step] opens a span in the trace of its context and hands it back
    without ending it: the history gains the start and no end, and the
    call costs the 5000 evaluations of one [checkEmail]. *)
Theorem step_leaves_span_open : forall ctx name fresh w,
  let span := fst (step MatchString ctx name fresh w) in
  let w' := snd (step MatchString ctx name fresh w) in
  TraceID span = match ctx with
                 | Some parent => TraceID parent
                 | None => TraceID fresh
                 end
  /\ SpanID span = SpanID fresh
  /\ history w' = (history w ++ [SpanStart name span ctx])%list
  /\ count_events is_span_end (history w') = count_events is_span_end (history w)
  /\ regexp_calls w' = (regexp_calls w + 5000)%N.
Proof.
  intros ctx name fresh w span w'. subst span w'.
  unfold step, tracer_Start. rewrite checkEmail_spec.
  unfold cpu_spent, record_event. cbn [fst snd history regexp_calls].
  split; [now destruct ctx|]. split; [now destruct ctx|].
  split; [reflexivity|]. split; [|reflexivity].
  rewrite count_events_app. cbn. lia.
Qed.

(** X7.  The generator does not look at the status of the response: whatever
    it is, the pass is the one of a response with status 200, its counter
    increment is tagged [status=200] and its record is the [[OK]] one. *)
Theorem generator_ignores_response_status : forall fresh code elapsed now jitter w,
  let e := mkIterEnv fresh (inr code) elapsed now jitter in
  generator_iteration MatchString e w
  = generator_iteration MatchString (mkIterEnv fresh (inr 200) elapsed now jitter) w
  /\ In (CounterAdd requestCount 1
           [("method", "GET"); ("status", "200"); ("route", routeSlow)])
        (history (generator_iteration MatchString e w))
  /\ exists r,
       In (LogEmit r) (history (generator_iteration MatchString e w))
       /\ RecSeverity r = SeverityInfo
       /\ Go.Contains (Body r) "status=200".
Proof.
  intros fresh code elapsed now jitter w e. subst e.
  rewrite (generator_iteration_succeeded MatchString
             (mkIterEnv fresh (inr code) elapsed now jitter) w code eq_refl).
  rewrite (generator_iteration_succeeded MatchString
             (mkIterEnv fresh (inr 200) elapsed now jitter) w 200 eq_refl).
  cbn [it_fresh it_elapsed it_now it_Intn500 history].
  split; [reflexivity|]. split.
  - apply in_or_app. right. cbn. tauto.
  - match goal with |- context [LogEmit ?r] => exists r end.
    split; [apply in_or_app; right; cbn [In]; do 6 right; left; reflexivity|].
    cbn [RecSeverity Body]. split; [reflexivity|].
    apply (proj1 (proj2 (spec_ok_body_contains _ _ _ _))).
Qed.

(** X8.  With [rand.Intn(500)] in its range, a pass ends by sleeping at least
    100 ms and less than 600 ms. *)
Theorem generator_sleep_bounds : forall e w,
  0 <= it_Intn500 e < 500 ->
  exists h d,
    history (generator_iteration MatchString e w) = (h ++ [Sleep d])%list
    /\ 100 * Go.Millisecond <= d < 600 * Go.Millisecond.
Proof.
  intros e w Hj.
  exists (removelast (history (generator_iteration MatchString e w))),
         (Go.Millisecond * (100 + it_Intn500 e)).
  split; [|unfold Go.Millisecond; lia].
  destruct (it_get e) as [err|resp] eqn:Hget.
  - rewrite (generator_iteration_failed MatchString e w err Hget). cbn [history].
    rewrite removelast_app by discriminate. cbn [removelast].
    rewrite <- app_assoc. reflexivity.
  - rewrite (generator_iteration_succeeded MatchString e w resp Hget). cbn [history].
    rewrite removelast_app by discriminate. cbn [removelast].
    rewrite <- app_assoc. reflexivity.
Qed.

End Traffic.

(** ** Properties of the start-up code *)

Section Startup.

Variable MatchString : string -> string -> bool.

Lemma initProvider_messages : forall err,
  fmt_Errorf "failed to create resource: %w" [Go.AError err]
  = "failed to create resource: " ++ err
  /\ fmt_Errorf "failed to create trace exporter: %w" [Go.AError err]
     = "failed to create trace exporter: " ++ err
  /\ fmt_Errorf "failed to create metric exporter: %w" [Go.AError err]
     = "failed to create metric exporter: " ++ err
  /\ fmt_Errorf "failed to create log exporter: %w" [Go.AError err]
     = "failed to create log exporter: " ++ err.
Proof.
  intros err. unfold fmt_Errorf. cbn. rewrite append_empty_r. repeat split.
Qed.

(** X9.  [initProvider] hands back the shutdown closure exactly when none of
    the four constructors fails.  Then the strings it handed to
    [WithEndpointURL] for the three exporters are the endpoint followed by
    [/v1/traces], [/v1/metrics] and [/v1/logs], the endpoint being the
    value of the environment variable or, when that is unset, the literal
    [localhost:4318], which carries no scheme; the three providers are
    built with one and the same resource; and the closure shuts down the
    meter and logger providers installed and, for traces, the base provider
    under the profiling wrapper that is installed. *)
Theorem initProvider_succeeds_iff : forall env out g,
  let endpoint := if String.eqb (OTEL_EXPORTER_OTLP_ENDPOINT env) ""
                  then "localhost:4318" else OTEL_EXPORTER_OTLP_ENDPOINT env in
  ((exists sd, snd (initProvider env out g) = inl sd)
   <-> resource_New_err out = None /\ otlptracehttp_New_err out = None
       /\ otlpmetrichttp_New_err out = None /\ otlploghttp_New_err out = None)
  /\ forall sd, snd (initProvider env out g) = inl sd ->
       let g' := fst (initProvider env out g) in
       TracerProvider g' = Some (otelpyroscope_NewTracerProvider (sd_baseTP sd))
       /\ MeterProvider g' = Some (sd_mp sd)
       /\ LoggerProvider g' = Some (sd_lp sd)
       /\ endpoint_url_given (sd_baseTP sd) = endpoint ++ "/v1/traces"
       /\ endpoint_url_given (sd_mp sd) = endpoint ++ "/v1/metrics"
       /\ endpoint_url_given (sd_lp sd) = endpoint ++ "/v1/logs"
       /\ (OTEL_EXPORTER_OTLP_ENDPOINT env = "" ->
           endpoint_url_given (sd_baseTP sd) = "localhost:4318/v1/traces"
           /\ endpoint_url_given (sd_mp sd) = "localhost:4318/v1/metrics"
           /\ endpoint_url_given (sd_lp sd) = "localhost:4318/v1/logs")
       /\ provider_resource (sd_mp sd) = provider_resource (sd_baseTP sd)
       /\ provider_resource (sd_lp sd) = provider_resource (sd_baseTP sd)
       /\ map fst (provider_resource (sd_baseTP sd))
          = ["service.name"; "service.version"; "service_name"; "job"].
Proof.
  intros env out g endpoint. subst endpoint. unfold initProvider.
  destruct (resource_New_err out), (otlptracehttp_New_err out),
    (otlpmetrichttp_New_err out), (otlploghttp_New_err out); cbn [fst snd];
    (split; [split; [intros [sd H]; try discriminate H; repeat split
                    | intros (H1 & H2 & H3 & H4); try discriminate; eexists; reflexivity]
            | intros sd H; try discriminate H; injection H as <-; repeat split;
              match goal with
              | Hunset : OTEL_EXPORTER_OTLP_ENDPOINT _ = _ |- _ =>
                  cbn [endpoint_url_given sd_baseTP sd_mp sd_lp];
                  rewrite Hunset; reflexivity
              end]).
Qed.

(** X10.  A failing [initProvider] is not all or nothing.  Its error names the
    first constructor that failed; the logger provider is as before; but
    once the resource and the trace exporter were built the new tracer
    provider and the propagator stay installed, and once the metric
    exporter was built too, so does the new meter provider. *)
Theorem initProvider_failure_is_partial : forall env out g msg,
  snd (initProvider env out g) = inr msg ->
  let g' := fst (initProvider env out g) in
  LoggerProvider g' = LoggerProvider g
  /\ match resource_New_err out, otlptracehttp_New_err out,
           otlpmetrichttp_New_err out, otlploghttp_New_err out with
     | Some err, _, _, _ =>
         msg = "failed to create resource: " ++ err /\ g' = g
     | None, Some err, _, _ =>
         msg = "failed to create trace exporter: " ++ err /\ g' = g
     | None, None, Some err, _ =>
         msg = "failed to create metric exporter: " ++ err
         /\ TracerProvider g' <> None
         /\ TextMapPropagator g' = ["TraceContext"; "Baggage"]
         /\ MeterProvider g' = MeterProvider g
     | None, None, None, Some err =>
         msg = "failed to create log exporter: " ++ err
         /\ TracerProvider g' <> None
         /\ TextMapPropagator g' = ["TraceContext"; "Baggage"]
         /\ MeterProvider g' <> None
     | None, None, None, None => False
     end.
Proof.
  intros env out g msg H g'. subst g'. revert H. unfold initProvider.
  destruct (resource_New_err out) as [e1|], (otlptracehttp_New_err out) as [e2|],
    (otlpmetrichttp_New_err out) as [e3|], (otlploghttp_New_err out) as [e4|];
    cbn [fst snd]; intros H; try discriminate H; injection H as <-;
    (split; [reflexivity|]);
    try (destruct (initProvider_messages e1) as (-> & _ & _ & _));
    try (destruct (initProvider_messages e2) as (_ & -> & _ & _));
    try (destruct (initProvider_messages e3) as (_ & _ & -> & _));
    try (destruct (initProvider_messages e4) as (_ & _ & _ & ->));
    repeat split; cbn; discriminate.
Qed.

Lemma traffic_loop_history_prefix : forall envs w,
  exists h, history (traffic_loop MatchString envs w) = (history w ++ h)%list.
Proof.
  induction envs as [|e envs IH] using rev_ind; intros w.
  - exists []. cbn. now rewrite app_nil_r.
  - rewrite traffic_loop_app. unfold traffic_loop at 1. cbn [fold_left].
    rewrite generator_iteration_history. destruct (IH w) as [h ->].
    eexists. rewrite <- app_assoc. reflexivity.
Qed.

Lemma log_Printf_v : forall prefix err w,
  history (log_Printf (prefix ++ "%v") [Go.AError err] w)
  = (history w ++ [LogPrintln (Go.Sprintf (prefix ++ "%v") [Go.AError err])])%list.
Proof. reflexivity. Qed.

(** X11.  [main] calls [log.Fatalf], ending the process with status 1,
    exactly when [initProvider] or [initMetrics] returns an error; an
    error of [startPyroscope] plays no part.  When it does, no route is
    registered and no span was ever started; when it does not, the three
    routes are registered and the generator runs one pass, with one span
    opened and closed, per input it is given. *)
Theorem main_fatal_iff : forall inp,
  let p := main MatchString inp in
  let init_fails := resource_New_err (in_init inp) <> None
                    \/ otlptracehttp_New_err (in_init inp) <> None
                    \/ otlpmetrichttp_New_err (in_init inp) <> None
                    \/ otlploghttp_New_err (in_init inp) <> None in
  let metrics_fail := in_counter_err inp <> None \/ in_histogram_err inp <> None in
  (exit_status p = Some 1 <-> init_fails \/ metrics_fail)
  /\ (exit_status p = None <-> ~ (init_fails \/ metrics_fail))
  /\ (exit_status p = Some 1 ->
      proc_routes p = []
      /\ count_events is_span_start (history (proc_world p)) = 0%nat)
  /\ (exit_status p = None ->
      proc_routes p = [(routeFast, "Hello"); (routeSlow, "Slow"); (routeAlloc, "Alloc")]
      /\ proc_instruments p = [requestCount; histogram]
      /\ count_events is_span_start (history (proc_world p))
         = List.length (in_passes inp)
      /\ count_events is_span_end (history (proc_world p))
         = List.length (in_passes inp)).
Proof.
  intros inp p init_fails metrics_fail.
  assert (Hinit : init_fails
                  <-> exists err g, initProvider (in_environ inp) (in_init inp) no_globals
                                    = (g, inr err)).
  { subst init_fails. unfold initProvider.
    destruct (resource_New_err (in_init inp)), (otlptracehttp_New_err (in_init inp)),
      (otlpmetrichttp_New_err (in_init inp)), (otlploghttp_New_err (in_init inp));
      (split; [intros H;
                first [ eexists _, _; reflexivity
                      | destruct H as [H|[H|[H|H]]]; congruence ]
              | intros (err & g & H);
                first [ discriminate H
                      | left; discriminate
                      | right; left; discriminate
                      | right; right; left; discriminate
                      | right; right; right; discriminate ]]). }
  assert (Hmet : metrics_fail
                 <-> exists created err,
                       initMetrics (in_counter_err inp) (in_histogram_err inp)
                       = (created, Some err)).
  { subst metrics_fail. unfold initMetrics.
    destruct (in_counter_err inp), (in_histogram_err inp);
      (split; [intros H;
                first [ eexists _, _; reflexivity | destruct H as [H|H]; congruence ]
              | intros (created & err & H);
                first [ discriminate H | left; discriminate | right; discriminate ]]). }
  clearbody init_fails metrics_fail. subst p. unfold main.
  destruct (initProvider (in_environ inp) (in_init inp) no_globals)
    as [g [sd|err]] eqn:Hi.
  - assert (Hno : ~ init_fails).
    { intros H. apply Hinit in H. destruct H as (err & g' & H). discriminate H. }
    destruct (startPyroscope (in_environ inp) (in_pyroscope_err inp)) as [cfg perr].
    destruct (initMetrics (in_counter_err inp) (in_histogram_err inp))
      as [created [err|]] eqn:Hm; cbn [exit_status proc_routes proc_world proc_instruments].
    + assert (Hyes : metrics_fail) by (apply Hmet; eauto).
      repeat split; intros; try discriminate; try tauto.
      destruct perr; reflexivity.
    + assert (Hno' : ~ metrics_fail).
      { intros H. apply Hmet in H. destruct H as (c & e & H). discriminate H. }
      assert (created = [requestCount; histogram]) as ->.
      { unfold initMetrics in Hm.
        destruct (in_counter_err inp), (in_histogram_err inp); now inversion Hm. }
      unfold startTrafficGenerator.
      destruct (traffic_loop_spans MatchString (in_passes inp)
                  (record_event (LogPrintln "Starting traffic generator...")
                     match perr with
                     | Some err => log_Printf "failed to start pyroscope: %v"
                                     [Go.AError err] initial_world
                     | None => initial_world
                     end)) as [Hs He].
      repeat split; intros; try discriminate; try tauto.
      * rewrite Hs. destruct perr; reflexivity.
      * rewrite He. destruct perr; reflexivity.
  - assert (Hyes : init_fails) by (apply Hinit; eauto).
    cbn [exit_status proc_routes proc_world proc_instruments].
    repeat split; intros; try discriminate; tauto.
Qed.

(** X12.  A failing [startPyroscope] does not stop [main]: with the providers
    and the instruments set up, the error is written as one line, the
    first effect of [main], the generator starts right after it, and
    [main] goes on; the address handed to the profiler is the one of the
    environment, or [http://localhost:4040] when that is unset. *)
Theorem main_survives_pyroscope_failure : forall inp err,
  in_pyroscope_err inp = Some err ->
  resource_New_err (in_init inp) = None ->
  otlptracehttp_New_err (in_init inp) = None ->
  otlpmetrichttp_New_err (in_init inp) = None ->
  otlploghttp_New_err (in_init inp) = None ->
  in_counter_err inp = None ->
  in_histogram_err inp = None ->
  let p := main MatchString inp in
  exit_status p = None
  /\ (exists h, history (proc_world p)
                = (LogPrintln ("failed to start pyroscope: " ++ err)
                   :: LogPrintln "Starting traffic generator..." :: h))
  /\ exists cfg, proc_pyroscope p = Some cfg
                 /\ ApplicationName cfg = serviceName
                 /\ ServerAddress cfg
                    = if String.eqb (PYROSCOPE_SERVER_ADDRESS (in_environ inp)) ""
                      then "http://localhost:4040"
                      else PYROSCOPE_SERVER_ADDRESS (in_environ inp).
Proof.
  intros inp err Hp H1 H2 H3 H4 H5 H6 p. subst p.
  unfold main, initProvider, startPyroscope, initMetrics.
  rewrite Hp, H1, H2, H3, H4, H5, H6.
  cbn [exit_status proc_world proc_pyroscope]. split; [reflexivity|]. split.
  - unfold startTrafficGenerator.
    destruct (traffic_loop_history_prefix (in_passes inp)
                (record_event (LogPrintln "Starting traffic generator...")
                   (log_Printf "failed to start pyroscope: %v" [Go.AError err]
                      initial_world))) as [h ->].
    exists h. unfold log_Printf, record_event. cbn. now rewrite append_empty_r.
  - eexists. split; [reflexivity|]. now cbn.
Qed.

End Startup.

(** ** Properties of [FaultController.java] *)

Example java_slow_sample :
  FaultController.slow sample_matcher (-3) 1000 5001000 FaultController.initial_state
  = ([("ok", FaultController.JBoolean true);
      ("matched", FaultController.JBoolean false);
      ("loops", FaultController.JInteger (-3));
      ("cost_ms", FaultController.JLong 5)],
     {| FaultController.ALLOC_HOLDER := [];
        FaultController.allocHolderBytes := 0;
        FaultController.matcher_calls := 1;
        FaultController.log :=
          [{| FaultController.template := "slow done: loops={}, cost_ms={}, matched={}";
              FaultController.arguments :=
                [FaultController.JInteger (-3); FaultController.JLong 5;
                 FaultController.JBoolean false] |}] |}).
Proof. vm_compute. reflexivity. Qed.

Example java_cpu_sample :
  option_map fst
    (FaultController.cpu (fun _ _ => true) 2 [0; 500000; 1500000; 2000000; 2100000]
       FaultController.initial_state)
  = Some [("ok", FaultController.JBoolean true);
          ("ms", FaultController.JInteger 2);
          ("cost_ms", FaultController.JLong 2);
          ("acc", FaultController.JLong 0x4091048501290040)].
Proof. vm_compute. reflexivity. Qed.

Section JavaController.

Variable matches : string -> string -> bool.

Lemma java_int_small : forall z,
  - 2147483648 <= z < 2147483648 -> FaultController.int z = z.
Proof.
  intros z Hz. unfold FaultController.int, FaultController.wrap.
  change (2 ^ (32 - 1)) with 2147483648. change (2 ^ 32) with 4294967296.
  rewrite Z.mod_small by lia. lia.
Qed.

Lemma java_int_wrap_once : forall z,
  2147483648 <= z < 4294967296 -> FaultController.int z = z - 4294967296.
Proof.
  intros z Hz. unfold FaultController.int, FaultController.wrap.
  change (2 ^ (32 - 1)) with 2147483648. change (2 ^ 32) with 4294967296.
  replace (z + 2147483648) with (z - 2147483648 + 1 * 4294967296) by lia.
  rewrite Z_mod_plus_full, Z.mod_small by lia. lia.
Qed.

Lemma java_long_small : forall z,
  - 9223372036854775808 <= z < 9223372036854775808 -> FaultController.long z = z.
Proof.
  intros z Hz. unfold FaultController.long, FaultController.wrap.
  change (2 ^ (64 - 1)) with 9223372036854775808.
  change (2 ^ 64) with 18446744073709551616.
  rewrite Z.mod_small by lia. lia.
Qed.

Lemma java_max_bytes : FaultController.ALLOC_HOLDER_MAX_BYTES = 268435456.
Proof. reflexivity. Qed.

(** The size [alloc] asks for, as long as the product fits an [int]. *)
Lemma java_alloc_bytes : forall m,
  1 <= m <= 2047 ->
  FaultController.int (FaultController.int (m * 1024) * 1024) = m * 1048576.
Proof.
  intros m Hm. rewrite (java_int_small (m * 1024)) by lia.
  rewrite java_int_small by lia. lia.
Qed.

Lemma java_alloc_bytes_negative : forall m,
  2048 <= m <= 4095 ->
  FaultController.int (FaultController.int (m * 1024) * 1024)
  = m * 1048576 - 4294967296.
Proof.
  intros m Hm. rewrite (java_int_small (m * 1024)) by lia.
  rewrite java_int_wrap_once by lia. lia.
Qed.

Lemma java_set_at_length : forall block i v,
  List.length (FaultController.set_at i v block) = List.length block.
Proof.
  induction block as [|b block IH]; intros [|i] v; cbn; try reflexivity.
  now rewrite IH.
Qed.

Lemma java_touch_length : forall block,
  List.length (FaultController.touch block) = List.length block.
Proof.
  intros block. unfold FaultController.touch.
  generalize (List.length block) at 1 as fuel. intros fuel.
  generalize 0 as i. revert block.
  induction fuel as [|fuel IH]; intros block i; cbn [FaultController.touch_loop].
  - reflexivity.
  - destruct (i <? Z.of_nat (List.length block)); [|reflexivity].
    rewrite IH. apply java_set_at_length.
Qed.

Lemma java_new_bytes : forall n,
  0 <= n -> FaultController.new_bytes n = inr (repeat 0 (Z.to_nat n)).
Proof.
  intros n Hn. unfold FaultController.new_bytes.
  destruct (Z.ltb_spec n 0); [lia|reflexivity].
Qed.

(** A request for 4097 MiB: the size wraps around to one MiB. *)
Example java_alloc_size_wraps :
  fst (FaultController.alloc 4097 false false 0 0 FaultController.initial_state)
  = inr [("ok", FaultController.JBoolean true);
         ("requested_mb", FaultController.JInteger 4097);
         ("allocated_bytes", FaultController.JInteger 1048576);
         ("hold", FaultController.JBoolean false);
         ("holder_bytes", FaultController.JInteger 0);
         ("cost_ms", FaultController.JLong 0)].
Proof.
  unfold FaultController.alloc. cbn [FaultController.after_clear].
  replace (FaultController.int (FaultController.int (Z.max 1 4097 * 1024) * 1024))
    with 1048576 by reflexivity.
  unfold FaultController.allocateMemoryBurst.
  rewrite java_new_bytes by lia. cbn [negb fst]. reflexivity.
Qed.

Lemma java_held_bytes_snoc : forall holder block,
  FaultController.held_bytes (holder ++ [block])
  = FaultController.held_bytes holder + Z.of_nat (List.length block).
Proof.
  induction holder as [|b holder IH]; intros block; cbn.
  - lia.
  - unfold FaultController.held_bytes in *. cbn. rewrite IH. lia.
Qed.

(** One call of [allocateMemoryBurst] that holds the block, when neither
    the size nor the new total leaves the range of [int]. *)
Lemma java_allocateMemoryBurst_hold : forall bytes st,
  0 <= bytes ->
  - 2147483648 <= FaultController.allocHolderBytes st + bytes < 2147483648 ->
  FaultController.allocateMemoryBurst bytes true st
  = if FaultController.allocHolderBytes st + bytes >? 268435456
    then (inr 0, st)
    else (inr bytes,
          {| FaultController.ALLOC_HOLDER :=
               (FaultController.ALLOC_HOLDER st
                  ++ [FaultController.touch (repeat 0 (Z.to_nat bytes))])%list;
             FaultController.allocHolderBytes :=
               FaultController.allocHolderBytes st + bytes;
             FaultController.matcher_calls := FaultController.matcher_calls st;
             FaultController.log := FaultController.log st |}).
Proof.
  intros bytes st Hb Hsum. unfold FaultController.allocateMemoryBurst.
  rewrite java_new_bytes by assumption. cbn [negb].
  rewrite java_int_small, java_max_bytes by assumption. reflexivity.
Qed.

Lemma java_logger_info_accounted : forall tpl args st,
  FaultController.accounted st ->
  FaultController.accounted (FaultController.logger_info tpl args st).
Proof. intros tpl args st H. exact H. Qed.

Lemma java_after_clear_accounted : forall clear st,
  FaultController.accounted st ->
  FaultController.accounted (FaultController.after_clear clear st).
Proof.
  intros [|] st H; [|exact H].
  split; [reflexivity|].
  cbn [FaultController.after_clear FaultController.allocHolderBytes].
  rewrite java_max_bytes. lia.
Qed.

(** The state [alloc] leaves is the one [allocateMemoryBurst] leaves,
    with one more log line when no exception is thrown. *)
Lemma java_alloc_state : forall mb hold clear t0 t1 st,
  let bytes := FaultController.int (FaultController.int (Z.max 1 mb * 1024) * 1024) in
  let r := FaultController.allocateMemoryBurst bytes hold (FaultController.after_clear clear st) in
  FaultController.ALLOC_HOLDER (snd (FaultController.alloc mb hold clear t0 t1 st))
  = FaultController.ALLOC_HOLDER (snd r)
  /\ FaultController.allocHolderBytes (snd (FaultController.alloc mb hold clear t0 t1 st))
     = FaultController.allocHolderBytes (snd r)
  /\ FaultController.matcher_calls (snd (FaultController.alloc mb hold clear t0 t1 st))
     = FaultController.matcher_calls (snd r).
Proof.
  intros mb hold clear t0 t1 st bytes r. subst r bytes.
  unfold FaultController.alloc.
  destruct (FaultController.allocateMemoryBurst _ hold (FaultController.after_clear clear st))
    as [[exn|n] st']; cbn; repeat split.
Qed.

(** X15.  The counter of held bytes stays equal to the bytes of the arrays
    held, and within the cap of 256 MiB, through every call of [alloc]
    that asks for at most 1791 MiB, whatever [hold] and [clear]. *)
Theorem java_alloc_keeps_accounting : forall mb hold clear t0 t1 st,
  FaultController.accounted st ->
  mb <= 1791 ->
  FaultController.accounted (snd (FaultController.alloc mb hold clear t0 t1 st)).
Proof.
  intros mb hold clear t0 t1 st Hacc Hmb.
  destruct (java_alloc_state mb hold clear t0 t1 st) as (Hh & Hb & _).
  apply (java_after_clear_accounted clear) in Hacc.
  unfold FaultController.accounted in *. rewrite Hh, Hb. clear Hh Hb.
  rewrite java_alloc_bytes by lia.
  remember (FaultController.after_clear clear st) as st0 eqn:Hst0. clear Hst0.
  rewrite java_max_bytes in *. destruct Hacc as [Heq Hrange].
  destruct hold.
  - rewrite java_allocateMemoryBurst_hold by lia.
    destruct (Z.gtb_spec (FaultController.allocHolderBytes st0 + Z.max 1 mb * 1048576)
                268435456) as [Hover|Hfits]; cbn [snd].
    + now split.
    + cbn [FaultController.ALLOC_HOLDER FaultController.allocHolderBytes].
      rewrite java_held_bytes_snoc, java_touch_length, repeat_length, Z2Nat.id by lia.
      split; lia.
  - unfold FaultController.allocateMemoryBurst.
    rewrite java_new_bytes by lia. cbn. now split.
Qed.

(** X16.  Asking for 1792 to 2047 MiB can slip past the cap: when the counter
    plus the request reaches [2^31] the sum wraps to a negative [int], the
    test against the cap passes, the block is held and the counter is left
    negative. *)
Theorem java_alloc_overflow_slips_past_cap : forall mb t0 t1 st,
  FaultController.accounted st ->
  1792 <= mb <= 2047 ->
  2147483648 <= FaultController.allocHolderBytes st + mb * 1048576 ->
  let st' := snd (FaultController.alloc mb true false t0 t1 st) in
  FaultController.allocHolderBytes st'
  = FaultController.allocHolderBytes st + mb * 1048576 - 4294967296
  /\ FaultController.allocHolderBytes st' < 0
  /\ List.length (FaultController.ALLOC_HOLDER st')
     = S (List.length (FaultController.ALLOC_HOLDER st))
  /\ FaultController.held_bytes (FaultController.ALLOC_HOLDER st') > 268435456.
Proof.
  intros mb t0 t1 st [Heq Hrange] Hmb Hsum st'. subst st'.
  destruct (java_alloc_state mb true false t0 t1 st) as (Hh & Hb & _).
  rewrite Hh, Hb. clear Hh Hb. cbn [FaultController.after_clear].
  rewrite java_max_bytes in Hrange.
  replace (Z.max 1 mb) with mb by lia. rewrite java_alloc_bytes by lia.
  unfold FaultController.allocateMemoryBurst.
  rewrite java_new_bytes by lia. cbn [negb].
  rewrite java_int_wrap_once, java_max_bytes by lia.
  destruct (Z.gtb_spec (FaultController.allocHolderBytes st + mb * 1048576 - 4294967296)
              268435456) as [Hover|Hfits]; [lia|].
  cbn [snd FaultController.ALLOC_HOLDER FaultController.allocHolderBytes].
  rewrite length_app, java_held_bytes_snoc, java_touch_length, repeat_length,
    Z2Nat.id by lia.
  cbn [List.length]. repeat split; lia.
Qed.

(** X17.  A request that would take the held bytes over the cap is answered
    normally but holds nothing: [allocated_bytes] is 0, [holder_bytes] is
    the total as it was, and the arrays held are the same. *)
Theorem java_alloc_refuses_over_cap : forall mb t0 t1 st,
  FaultController.accounted st ->
  1 <= mb <= 1791 ->
  FaultController.allocHolderBytes st + mb * 1048576 > 268435456 ->
  exists resp,
    fst (FaultController.alloc mb true false t0 t1 st) = inr resp
    /\ FaultController.get "ok" resp = Some (FaultController.JBoolean true)
    /\ FaultController.get "allocated_bytes" resp = Some (FaultController.JInteger 0)
    /\ FaultController.get "holder_bytes" resp
       = Some (FaultController.JInteger (FaultController.allocHolderBytes st))
    /\ FaultController.ALLOC_HOLDER (snd (FaultController.alloc mb true false t0 t1 st))
       = FaultController.ALLOC_HOLDER st.
Proof.
  intros mb t0 t1 st [Heq Hrange] Hmb Hover.
  rewrite java_max_bytes in Hrange.
  unfold FaultController.alloc. cbn [FaultController.after_clear].
  replace (Z.max 1 mb) with mb by lia. rewrite java_alloc_bytes by lia.
  rewrite java_allocateMemoryBurst_hold by lia.
  destruct (Z.gtb_spec (FaultController.allocHolderBytes st + mb * 1048576) 268435456)
    as [_|Hfits]; [|lia].
  eexists. split; [reflexivity|]. repeat split.
Qed.

(** X18.  Asking for 2048 to 4095 MiB makes the size a negative [int]: [alloc]
    throws [NegativeArraySizeException] before anything is held or
    logged, yet after [clear] has emptied the holder. *)
Theorem java_alloc_negative_size : forall mb hold clear t0 t1 st,
  2048 <= mb <= 4095 ->
  FaultController.alloc mb hold clear t0 t1 st
  = (inl (FaultController.NegativeArraySizeException (mb * 1048576 - 4294967296)),
     FaultController.after_clear clear st)
  /\ FaultController.log (FaultController.after_clear clear st) = FaultController.log st
  /\ (clear = true -> FaultController.ALLOC_HOLDER (FaultController.after_clear clear st) = []).
Proof.
  intros mb hold clear t0 t1 st Hmb. unfold FaultController.alloc.
  replace (Z.max 1 mb) with mb by lia. rewrite java_alloc_bytes_negative by lia.
  unfold FaultController.allocateMemoryBurst, FaultController.new_bytes.
  destruct (Z.ltb_spec (mb * 1048576 - 4294967296) 0) as [_|Hpos]; [|lia].
  split; [reflexivity|]. split; [now destruct clear|]. now intros ->.
Qed.

(** X19.  Without [clear], [alloc] never drops an array it holds: the holder
    after the call is the holder before it, followed by at most one new
    array; without [hold] it is the same holder. *)
Theorem java_alloc_never_evicts : forall mb hold t0 t1 st,
  exists added,
    FaultController.ALLOC_HOLDER (snd (FaultController.alloc mb hold false t0 t1 st))
    = (FaultController.ALLOC_HOLDER st ++ added)%list
    /\ (List.length added <= 1)%nat
    /\ (hold = false -> added = []).
Proof.
  intros mb hold t0 t1 st.
  destruct (java_alloc_state mb hold false t0 t1 st) as (-> & _ & _).
  cbn [FaultController.after_clear]. unfold FaultController.allocateMemoryBurst.
  destruct (FaultController.new_bytes _) as [exn|block].
  - exists []. cbn. rewrite app_nil_r. split; [reflexivity|]. split; [lia|reflexivity].
  - destruct hold; cbn [negb].
    + destruct (_ >? _).
      * exists []. cbn. rewrite app_nil_r.
        split; [reflexivity|]. split; [lia|discriminate].
      * eexists [_]. cbn. split; [reflexivity|]. split; [lia|discriminate].
    + exists []. cbn. rewrite app_nil_r. split; [reflexivity|]. split; [lia|reflexivity].
Qed.

Lemma java_alloc_hold_step : forall m st,
  1 <= m <= 256 ->
  0 <= FaultController.allocHolderBytes st <= 268435456 ->
  let st' := snd (FaultController.alloc m true false 0 0 st) in
  let over := FaultController.allocHolderBytes st + m * 1048576 >? 268435456 in
  FaultController.allocHolderBytes st'
  = (if over then FaultController.allocHolderBytes st
     else FaultController.allocHolderBytes st + m * 1048576)
  /\ List.length (FaultController.ALLOC_HOLDER st')
     = (if over then List.length (FaultController.ALLOC_HOLDER st)
        else S (List.length (FaultController.ALLOC_HOLDER st))).
Proof.
  intros m st Hm Ha st' over. subst st' over.
  destruct (java_alloc_state m true false 0 0 st) as (-> & -> & _).
  cbn [FaultController.after_clear].
  replace (Z.max 1 m) with m by lia. rewrite java_alloc_bytes by lia.
  rewrite java_allocateMemoryBurst_hold by lia.
  destruct (_ >? _); cbn [snd FaultController.ALLOC_HOLDER FaultController.allocHolderBytes].
  - now split.
  - rewrite length_app. cbn [List.length]. split; [reflexivity|lia].
Qed.

(** X20.  Holding [m] MiB at a time (1 to 256) from the empty holder: the
    first [256 / m] requests are held and every later one is refused, so
    after [n] requests [min n (256 / m)] arrays are held and the counter
    stands at as many times [m] MiB. *)
Theorem java_alloc_plateau : forall m n,
  1 <= m <= 256 ->
  let st := FaultController.alloc_repeatedly m n FaultController.initial_state in
  let held := Nat.min n (Z.to_nat (256 / m)) in
  List.length (FaultController.ALLOC_HOLDER st) = held
  /\ FaultController.allocHolderBytes st = Z.of_nat held * (m * 1048576).
Proof.
  intros m n Hm. cbv zeta.
  assert (Hq : m * (256 / m) <= 256 < m * (256 / m + 1)).
  { split; [apply Z.mul_div_le; lia|].
    rewrite Z.mul_add_distr_l, Z.mul_1_r.
    pose proof (Z.mod_pos_bound 256 m ltac:(lia)) as Hmod.
    pose proof (Z.div_mod 256 m ltac:(lia)) as Hdm. lia. }
  assert (Hq0 : 0 <= 256 / m) by (apply Z.div_pos; lia).
  remember (256 / m) as q eqn:Hqdef. clear Hqdef.
  induction n as [|n IH].
  - cbn. split; [reflexivity|lia].
  - unfold FaultController.alloc_repeatedly in *. rewrite Nat.iter_succ.
    remember (Nat.iter n
                (fun st => snd (FaultController.alloc m true false 0 0 st))
                FaultController.initial_state) as st eqn:Hst.
    clear Hst. destruct IH as [IHl IHb].
    assert (Hheld : 0 <= Z.of_nat (Nat.min n (Z.to_nat q)) <= q) by lia.
    assert (Hrange : 0 <= FaultController.allocHolderBytes st <= 268435456).
    { rewrite IHb. nia. }
    destruct (java_alloc_hold_step m st Hm Hrange) as [-> ->].
    rewrite IHl, IHb.
    destruct (Z.gtb_spec (Z.of_nat (Nat.min n (Z.to_nat q)) * (m * 1048576) + m * 1048576)
                268435456) as [Hover|Hfits].
    + assert (Z.of_nat (Nat.min n (Z.to_nat q)) = q) by nia.
      split; [lia|]. f_equal. lia.
    + assert (Z.of_nat (Nat.min n (Z.to_nat q)) < q) by nia.
      split; [lia|]. replace (Nat.min (S n) (Z.to_nat q)) with (S (Nat.min n (Z.to_nat q)))
        by lia. lia.
Qed.

Lemma java_checkEmail_loop : forall n st,
  Go.for_range n
    (fun _ (acc : bool * FaultController.State) =>
       let (matched, st) := acc in
       let (m, st) := FaultController.matcher_matches matches
                        FaultController.EMAIL_PATTERN
                        FaultController.SLOW_EMAIL_SAMPLE st in
       (if m then true else matched, st))
    (false, st)
  = ((0 <? n)%nat
     && matches FaultController.EMAIL_PATTERN FaultController.SLOW_EMAIL_SAMPLE,
     {| FaultController.ALLOC_HOLDER := FaultController.ALLOC_HOLDER st;
        FaultController.allocHolderBytes := FaultController.allocHolderBytes st;
        FaultController.matcher_calls :=
          (FaultController.matcher_calls st + N.of_nat n)%N;
        FaultController.log := FaultController.log st |}).
Proof.
  induction n as [|n IH]; intros st.
  - unfold Go.for_range. cbn [seq fold_left andb Nat.ltb Nat.leb].
    destruct st. cbn. now rewrite N.add_0_r.
  - rewrite for_range_S, IH. unfold FaultController.matcher_matches.
    cbn [FaultController.ALLOC_HOLDER FaultController.allocHolderBytes
         FaultController.matcher_calls FaultController.log].
    replace (N.succ (FaultController.matcher_calls st + N.of_nat n))
      with (FaultController.matcher_calls st + N.of_nat (S n))%N by lia.
    f_equal.
    destruct (matches _ _), n; reflexivity.
Qed.

(** X13.  [slow] runs the match [max(1, loops)] times, so at least once even
    when asked for no loop or a negative number of them, and still answers
    with [loops] as it was asked; [matched] is the value of the match;
    the holder is not touched. *)
Theorem java_slow_runs_at_least_once : forall loops t0 t1 st,
  let resp := fst (FaultController.slow matches loops t0 t1 st) in
  let st' := snd (FaultController.slow matches loops t0 t1 st) in
  FaultController.matcher_calls st'
  = (FaultController.matcher_calls st + Z.to_N (Z.max 1 loops))%N
  /\ (FaultController.matcher_calls st < FaultController.matcher_calls st')%N
  /\ FaultController.get "loops" resp = Some (FaultController.JInteger loops)
  /\ FaultController.get "matched" resp
     = Some (FaultController.JBoolean
               (matches FaultController.EMAIL_PATTERN FaultController.SLOW_EMAIL_SAMPLE))
  /\ FaultController.get "ok" resp = Some (FaultController.JBoolean true)
  /\ FaultController.ALLOC_HOLDER st' = FaultController.ALLOC_HOLDER st
  /\ FaultController.allocHolderBytes st' = FaultController.allocHolderBytes st.
Proof.
  intros loops t0 t1 st resp st'. subst resp st'.
  unfold FaultController.slow, FaultController.checkEmail.
  rewrite java_checkEmail_loop.
  cbn [fst snd FaultController.logger_info FaultController.matcher_calls
       FaultController.ALLOC_HOLDER FaultController.allocHolderBytes].
  assert (Hn : (0 < Z.to_nat (Z.max 1 loops))%nat) by lia.
  destruct (Nat.ltb_spec 0 (Z.to_nat (Z.max 1 loops))) as [_|Hbad]; [|lia].
  cbn [andb]. repeat split; lia.
Qed.

Lemma java_cpu_loop_busy : forall busy untilNs acc st t_exit rest,
  Forall (fun t => t < untilNs) busy ->
  untilNs <= t_exit ->
  exists acc',
    FaultController.cpu_loop matches (busy ++ t_exit :: rest) untilNs acc st
    = Some (acc', rest,
            {| FaultController.ALLOC_HOLDER := FaultController.ALLOC_HOLDER st;
               FaultController.allocHolderBytes := FaultController.allocHolderBytes st;
               FaultController.matcher_calls :=
                 (FaultController.matcher_calls st + N.of_nat (List.length busy))%N;
               FaultController.log := FaultController.log st |}).
Proof.
  induction busy as [|t busy IH]; intros untilNs acc st t_exit rest Hbusy Hexit.
  - cbn [app FaultController.cpu_loop List.length].
    destruct (Z.ltb_spec t_exit untilNs); [lia|].
    exists acc. destruct st. cbn. now rewrite N.add_0_r.
  - inversion Hbusy as [|? ? Ht Hrest]; subst.
    cbn [app FaultController.cpu_loop List.length].
    destruct (Z.ltb_spec t untilNs); [|lia].
    unfold FaultController.matcher_matches.
    edestruct (IH untilNs) as [acc' ->]; [exact Hrest|exact Hexit|].
    exists acc'. cbn [FaultController.ALLOC_HOLDER FaultController.allocHolderBytes
                      FaultController.matcher_calls FaultController.log].
    do 3 f_equal. lia.
Qed.

(** X14.  [cpu] keeps the processor busy for at least the time asked for.
    With a clock that does not run backwards and readings that fit a
    [long], it leaves its loop at the first reading not below
    [start + max(1, ms)] milliseconds, having run the match once per
    earlier reading, and the [cost_ms] it reports is at least
    [max(1, ms)]. *)
Theorem java_cpu_burns_at_least_ms : forall ms t0 busy t_exit t_end rest st,
  - 2147483648 <= ms < 2147483648 ->
  - 9223372036854775808 <= t0 ->
  t0 + Z.max 1 ms * 1000000 < 9223372036854775808 ->
  Forall (fun t => t < t0 + Z.max 1 ms * 1000000) busy ->
  t0 + Z.max 1 ms * 1000000 <= t_exit ->
  t_exit <= t_end ->
  t_end - t0 < 9223372036854775808 ->
  exists resp st' cost,
    FaultController.cpu matches ms (t0 :: busy ++ t_exit :: t_end :: rest) st
    = Some (resp, st')
    /\ FaultController.get "cost_ms" resp = Some (FaultController.JLong cost)
    /\ Z.max 1 ms <= cost
    /\ FaultController.get "ms" resp = Some (FaultController.JInteger ms)
    /\ FaultController.matcher_calls st'
       = (FaultController.matcher_calls st + N.of_nat (List.length busy))%N
    /\ FaultController.ALLOC_HOLDER st' = FaultController.ALLOC_HOLDER st.
Proof.
  intros ms t0 busy t_exit t_end rest st Hms Ht0 Huntil Hbusy Hexit Hend Hspan.
  unfold FaultController.cpu.
  rewrite (java_long_small (Z.max 1 ms * 1000000)) by lia.
  rewrite (java_long_small (t0 + Z.max 1 ms * 1000000)) by lia.
  destruct (java_cpu_loop_busy busy (t0 + Z.max 1 ms * 1000000) 0 st t_exit
              (t_end :: rest) Hbusy Hexit) as [acc ->].
  rewrite java_long_small by lia.
  eexists _, _, _. split; [reflexivity|].
  cbn [FaultController.logger_info FaultController.matcher_calls
       FaultController.ALLOC_HOLDER].
  split; [reflexivity|]. split; [|repeat split].
  rewrite Z.quot_div_nonneg by lia.
  apply Z.div_le_lower_bound; lia.
Qed.

Lemma java_set_at_nth : forall block i v k,
  (i < List.length block)%nat ->
  nth k (FaultController.set_at i v block) 0
  = if (k =? i)%nat then v else nth k block 0.
Proof.
  induction block as [|b block IH]; intros i v k Hi; cbn [List.length] in Hi; [lia|].
  destruct i as [|i], k as [|k]; cbn [FaultController.set_at nth Nat.eqb]; try reflexivity.
  apply IH. lia.
Qed.

(** The loop that touches a block, started at a multiple [i] of 4096 with
    fuel for all the passes left: it sets the bytes at the multiples of
    4096 from [i] on and leaves the others. *)
Lemma java_touch_loop_nth : forall fuel i block k,
  0 <= i ->
  i mod 4096 = 0 ->
  Z.of_nat (List.length block) + 4096 < 2147483648 ->
  Z.of_nat (List.length block) - i <= Z.of_nat fuel * 4096 ->
  nth k (FaultController.touch_loop fuel i block) 0
  = if (i <=? Z.of_nat k) && (Z.of_nat k mod 4096 =? 0)
       && (Z.of_nat k <? Z.of_nat (List.length block))
    then 1 else nth k block 0.
Proof.
  induction fuel as [|fuel IH]; intros i block k Hi Hmod Hlen Hfuel;
    cbn [FaultController.touch_loop].
  - destruct (Z.leb_spec i (Z.of_nat k)), (Z.ltb_spec (Z.of_nat k) (Z.of_nat (List.length block)));
      cbn [andb]; try reflexivity; try lia. now rewrite andb_false_r.
  - destruct (Z.ltb_spec i (Z.of_nat (List.length block))) as [Hin|Hout].
    + rewrite java_int_small by lia.
      rewrite IH; rewrite ?java_set_at_length; try lia.
      2:{ rewrite <- Z.add_mod_idemp_l, Hmod by lia. reflexivity. }
      rewrite java_set_at_nth by lia.
      destruct (Nat.eqb_spec k (Z.to_nat i)) as [->|Hne].
      * rewrite Z2Nat.id, Hmod by lia. cbn [Z.eqb].
        destruct (Z.leb_spec (i + 4096) i); [lia|].
        destruct (Z.leb_spec i i); [|lia].
        destruct (Z.ltb_spec i (Z.of_nat (List.length block))); [|lia].
        reflexivity.
      * destruct (Z.eqb_spec (Z.of_nat k mod 4096) 0) as [Hk|Hk];
          [|now rewrite !andb_false_r].
        rewrite !andb_true_r.
        assert (Hcmp : (i + 4096 <=? Z.of_nat k) = (i <=? Z.of_nat k)).
        { destruct (Z.leb_spec (i + 4096) (Z.of_nat k)), (Z.leb_spec i (Z.of_nat k));
            try reflexivity; try lia.
          exfalso. apply Hne.
          pose proof (Z.div_mod i 4096 ltac:(lia)) as Hdi.
          pose proof (Z.div_mod (Z.of_nat k) 4096 ltac:(lia)) as Hdk.
          rewrite Hmod in Hdi. rewrite Hk in Hdk. lia. }
        now rewrite Hcmp.
    + destruct (Z.leb_spec i (Z.of_nat k)), (Z.ltb_spec (Z.of_nat k) (Z.of_nat (List.length block)));
        cbn [andb]; try reflexivity; try lia. now rewrite andb_false_r.
Qed.

(** X21.  A request [alloc(mb, true, false)] that fits under the cap holds one
    more array, of [mb] MiB, in which the first byte of every 4 KiB page
    is 1 and every other byte is 0. *)
Theorem java_alloc_holds_touched_block : forall mb t0 t1 st,
  FaultController.accounted st ->
  1 <= mb <= 256 ->
  FaultController.allocHolderBytes st + mb * 1048576 <= 268435456 ->
  exists block,
    FaultController.ALLOC_HOLDER (snd (FaultController.alloc mb true false t0 t1 st))
    = (FaultController.ALLOC_HOLDER st ++ [block])%list
    /\ Z.of_nat (List.length block) = mb * 1048576
    /\ forall k : nat,
         Z.of_nat k < mb * 1048576 ->
         nth k block 0 = if Z.of_nat k mod 4096 =? 0 then 1 else 0.
Proof.
  intros mb t0 t1 st [Heq Hrange] Hmb Hfits.
  rewrite java_max_bytes in Hrange.
  destruct (java_alloc_state mb true false t0 t1 st) as (-> & _ & _).
  cbn [FaultController.after_clear].
  replace (Z.max 1 mb) with mb by lia. rewrite java_alloc_bytes by lia.
  rewrite java_allocateMemoryBurst_hold by lia.
  destruct (Z.gtb_spec (FaultController.allocHolderBytes st + mb * 1048576) 268435456)
    as [Hover|_]; [lia|].
  cbn [snd FaultController.ALLOC_HOLDER]. eexists. split; [reflexivity|].
  assert (Hlen : Z.of_nat (List.length (repeat 0 (Z.to_nat (mb * 1048576))))
                 = mb * 1048576) by (rewrite repeat_length; lia).
  split; [now rewrite java_touch_length|].
  intros k Hk. unfold FaultController.touch.
  rewrite java_touch_loop_nth; try lia.
  2:{ reflexivity. }
  rewrite Hlen. destruct (Z.leb_spec 0 (Z.of_nat k)); [|lia].
  destruct (Z.ltb_spec (Z.of_nat k) (mb * 1048576)); [|lia].
  cbn [andb]. rewrite andb_true_r, nth_repeat. reflexivity.
Qed.

End JavaController.

(** ** The further theorems at sample inputs *)

Lemma generator_sleep_bounds_witness :
  0 <= it_Intn500 sample_failed_pass < 500
  /\ exists h d,
       history (generator_iteration sample_matcher sample_failed_pass initial_world)
       = (h ++ [Sleep d])%list
       /\ 100 * Go.Millisecond <= d < 600 * Go.Millisecond.
Proof.
  assert (H : 0 <= it_Intn500 sample_failed_pass < 500) by (vm_compute; intuition discriminate).
  split; [exact H|].
  exact (generator_sleep_bounds sample_matcher sample_failed_pass initial_world H).
Defined.

Lemma initProvider_failure_is_partial_witness :
  snd (initProvider sample_environ sample_metric_exporter_fails no_globals)
  = inr "failed to create metric exporter: parse endpoint url: invalid port"
  /\ LoggerProvider (fst (initProvider sample_environ sample_metric_exporter_fails no_globals))
     = None.
Proof.
  assert (H : snd (initProvider sample_environ sample_metric_exporter_fails no_globals)
              = inr "failed to create metric exporter: parse endpoint url: invalid port")
    by reflexivity.
  split; [exact H|].
  exact (proj1 (initProvider_failure_is_partial sample_environ
                  sample_metric_exporter_fails no_globals _ H)).
Defined.

Lemma main_survives_pyroscope_failure_witness :
  in_pyroscope_err sample_main_inputs = Some "connection refused"
  /\ exit_status (main sample_matcher sample_main_inputs) = None.
Proof.
  split; [reflexivity|].
  exact (proj1 (main_survives_pyroscope_failure sample_matcher sample_main_inputs
                  "connection refused" eq_refl eq_refl eq_refl eq_refl eq_refl
                  eq_refl eq_refl)).
Defined.

Lemma java_alloc_keeps_accounting_witness :
  FaultController.accounted FaultController.initial_state
  /\ 50 <= 1791
  /\ FaultController.accounted
       (snd (FaultController.alloc 50 true false 0 1000000
               FaultController.initial_state)).
Proof.
  assert (Ha : FaultController.accounted FaultController.initial_state).
  { split; [reflexivity|]. vm_compute. intuition discriminate. }
  assert (Hm : 50 <= 1791) by discriminate.
  split; [exact Ha|]. split; [exact Hm|].
  exact (java_alloc_keeps_accounting 50 true false 0 1000000
           FaultController.initial_state Ha Hm).
Defined.

Lemma java_alloc_overflow_slips_past_cap_witness :
  FaultController.accounted java_sample_held
  /\ FaultController.allocHolderBytes
       (snd (FaultController.alloc 2047 true false 0 0 java_sample_held)) < 0.
Proof.
  assert (Ha : FaultController.accounted java_sample_held).
  { split; [vm_compute; reflexivity|]. vm_compute. intuition discriminate. }
  split; [exact Ha|].
  refine (proj1 (proj2 (java_alloc_overflow_slips_past_cap 2047 0 0 java_sample_held
                         Ha _ _))).
  - vm_compute. intuition discriminate.
  - vm_compute. discriminate.
Defined.

Lemma java_alloc_refuses_over_cap_witness :
  FaultController.accounted FaultController.initial_state
  /\ exists resp,
       fst (FaultController.alloc 257 true false 0 0 FaultController.initial_state)
       = inr resp
       /\ FaultController.get "allocated_bytes" resp
          = Some (FaultController.JInteger 0).
Proof.
  assert (Ha : FaultController.accounted FaultController.initial_state).
  { split; [reflexivity|]. vm_compute. intuition discriminate. }
  split; [exact Ha|].
  destruct (java_alloc_refuses_over_cap 257 0 0 FaultController.initial_state Ha)
    as (resp & H1 & _ & H2 & _).
  - vm_compute. intuition discriminate.
  - vm_compute. reflexivity.
  - exists resp. split; assumption.
Defined.

Lemma java_alloc_negative_size_witness :
  2048 <= 3000 <= 4095
  /\ fst (FaultController.alloc 3000 true true 0 0 java_sample_held)
     = inl (FaultController.NegativeArraySizeException (-1149239296)).
Proof.
  assert (H : 2048 <= 3000 <= 4095) by (vm_compute; intuition discriminate).
  split; [exact H|].
  rewrite (proj1 (java_alloc_negative_size 3000 true true 0 0 java_sample_held H)).
  reflexivity.
Defined.

Lemma java_alloc_plateau_witness :
  1 <= 50 <= 256
  /\ List.length
       (FaultController.ALLOC_HOLDER
          (FaultController.alloc_repeatedly 50 10 FaultController.initial_state))
     = 5%nat.
Proof.
  assert (H : 1 <= 50 <= 256) by (vm_compute; intuition discriminate).
  split; [exact H|].
  exact (proj1 (java_alloc_plateau 50 10 H)).
Defined.

Lemma java_cpu_burns_at_least_ms_witness :
  Forall (fun t => t < 0 + Z.max 1 2 * 1000000) [500000; 1500000]
  /\ exists resp st' cost,
       FaultController.cpu sample_matcher 2 [0; 500000; 1500000; 2000000; 2100000]
         FaultController.initial_state = Some (resp, st')
       /\ FaultController.get "cost_ms" resp = Some (FaultController.JLong cost)
       /\ 2 <= cost.
Proof.
  assert (Hbusy : Forall (fun t => t < 0 + Z.max 1 2 * 1000000) [500000; 1500000])
    by (repeat constructor).
  split; [exact Hbusy|].
  destruct (java_cpu_burns_at_least_ms sample_matcher 2 0 [500000; 1500000] 2000000
              2100000 [] FaultController.initial_state
              ltac:(lia) ltac:(lia) ltac:(reflexivity) Hbusy ltac:(discriminate)
              ltac:(discriminate) ltac:(reflexivity))
    as (resp & st' & cost & H1 & H2 & H3 & _).
  exists resp, st', cost. repeat split; assumption.
Defined.

Lemma java_alloc_holds_touched_block_witness :
  FaultController.accounted FaultController.initial_state
  /\ exists block,
       FaultController.ALLOC_HOLDER
         (snd (FaultController.alloc 1 true false 0 0 FaultController.initial_state))
       = [block]
       /\ Z.of_nat (List.length block) = 1048576.
Proof.
  assert (Ha : FaultController.accounted FaultController.initial_state).
  { split; [reflexivity|]. vm_compute. intuition discriminate. }
  split; [exact Ha|].
  destruct (java_alloc_holds_touched_block 1 0 0 FaultController.initial_state Ha)
    as (block & H1 & H2 & _).
  - vm_compute. intuition discriminate.
  - vm_compute. discriminate.
  - exists block. split; assumption.
Defined.
